(** * budget_optimizer_api.py: the budget rule engine and its endpoint

    A shallow embedding of [get_adjustment_percentage_rules],
    [analyze_campaigns] and [analyze_budget_endpoint].

    Numbers are what they are in the program: Python floats are the kernel's
    binary64 [float], with the IEEE operations, NaN and the two infinities;
    Python integers are [Z].  A Python exception is a value [Raise e] of the
    [result] monad, so that a failing [round] aborts the batch as it does in
    the source.

    What the model leaves to its inputs:
    - the clock: [datetime.now()] is the argument [now], in nanoseconds;
    - timestamp parsing: a campaign carries the value [pd.to_datetime]
      gives for its [create_time] ([None] for [NaT]), in nanoseconds and
      without a time zone (with a time zone the subtraction of line 77
      raises, which is outside this model);
    - numeric parsing: a numeric field is [Num x] when [pd.to_numeric] reads
      it as the binary64 number [x], and [NotNum] when it reads it as NaN; a
      JSON integer is taken as the float it converts to, so a column of
      integers is followed exactly below [2^53] only;
    - every record has all its keys (a key absent from the whole batch makes
      the column lookup raise, which is outside this model), and
      [campaign_id] is already the text [str(campaign_id)];
    - the mean over the valid CPCs adds in the order of numpy's pairwise
      summation, from the identity [0.0]. *)

From Stdlib Require Import ZArith Floats Bool List Lia DecimalString.
From stdpp Require Import gmap strings.
Import ListNotations.

#[local] Set Warnings "-inexact-float".
#[local] Open Scope Z_scope.

(** ** Python values *)

Module Py.

Inductive exn : Set :=
| OverflowError   (* cannot convert float infinity to integer *)
| ValueError      (* cannot convert float NaN to integer; bad DataFrame input *)
| TypeError.      (* unsupported operand type(s) for / *)

Inductive result (A : Type) : Type :=
| Ok (a : A)
| Raise (e : exn).
Arguments Ok {A} a.
Arguments Raise {A} e.

Definition bind {A B : Type} (c : result A) (k : A -> result B) : result B :=
  match c with
  | Ok a => k a
  | Raise e => Raise e
  end.

Fixpoint mapM {A B : Type} (f : A -> result B) (l : list A) : result (list B) :=
  match l with
  | [] => Ok []
  | a :: l' =>
      bind (f a) (fun b => bind (mapM f l') (fun bs => Ok (b :: bs)))
  end.

(** A number is an [int] or a [float]; [round] and [max] move between the
    two, so the loop variable [new_budget] is of this type. *)
Inductive num : Set :=
| Int (n : Z)
| Float (x : float).

(** [num / den] rounded to the nearest integer, ties to the even one
    ([0 <= num], [0 < den]). *)
Definition round_half_even (num den : Z) : Z :=
  let q := num / den in
  match (2 * (num mod den)) ?= den with
  | Lt => q
  | Gt => q + 1
  | Eq => if Z.even q then q else q + 1
  end.

(** [k * m * 2^e] rounded to the nearest integer, ties to even. *)
Definition nearest_scaled (k : Z) (m : positive) (e : Z) : Z :=
  match e with
  | Zneg p => round_half_even (k * Zpos m) (2 ^ Zpos p)
  | _ => k * Zpos m * 2 ^ e
  end.

(** [round(x)] of a float: the nearest integer, ties to even; it raises on
    an infinity and on NaN. *)
Definition round_float (x : float) : result Z :=
  match Prim2SF x with
  | S754_nan => Raise ValueError
  | S754_infinity _ => Raise OverflowError
  | S754_zero _ => Ok 0
  | S754_finite s m e => Ok (cond_Zopp s (nearest_scaled 1 m e))
  end.

Definition round (v : num) : result Z :=
  match v with
  | Int n => Ok n
  | Float x => round_float x
  end.

(** [float(n)]: the binary64 number nearest to [n].  Python raises for
    [2^1024 <= |n|], where this gives an infinity; no integer of this
    program is that large (lemma [round_float_bound] below). *)
Definition float_of_Z (n : Z) : float :=
  SF2Prim (binary_normalize prec emax n 0 false).

Definition to_float (v : num) : float :=
  match v with
  | Int n => float_of_Z n
  | Float x => x
  end.

(** [a - x] with a float on the right: the left operand is converted. *)
Definition sub_float (a : num) (x : float) : float :=
  (to_float a - x)%float.

Definition gtb (x y : float) : bool := (y <? x)%float.

(** The order of an integer and a float is the order of their exact
    values. *)
Definition Z_compare_float (n : Z) (y : float) : option comparison :=
  match Prim2SF y with
  | S754_nan => None
  | S754_infinity s => Some (if s then Gt else Lt)
  | S754_zero _ => Some (n ?= 0)
  | S754_finite s m (Zneg p) => Some (n * 2 ^ Zpos p ?= cond_Zopp s (Zpos m))
  | S754_finite s m e => Some (n ?= cond_Zopp s (Zpos m * 2 ^ e))
  end.

Definition Z_ltb_float (n : Z) (y : float) : bool :=
  match Z_compare_float n y with
  | Some Lt => true
  | _ => false
  end.

(** [a < b] for an integer on the left. *)
Definition Z_ltb_num (n : Z) (b : num) : bool :=
  match b with
  | Int k => n <? k
  | Float y => Z_ltb_float n y
  end.

(** [max(x, 1)]: the second argument wins only when it is greater. *)
Definition max_1 (x : float) : num :=
  if gtb 1 x then Int 1 else Float x.

(** *** Text *)

Definition str_int (n : Z) : string := NilZero.string_of_int (Z.to_int n).

Definition two_digits (n : Z) : string :=
  if n <? 10 then "0" +:+ str_int n else str_int n.

(** [f"{x:.2f}"]: the exact value of [x] rounded to two decimals. *)
Definition fmt_2f (x : float) : string :=
  match Prim2SF x with
  | S754_nan => "nan"
  | S754_infinity s => if s then "-inf" else "inf"
  | S754_zero s => if s then "-0.00" else "0.00"
  | S754_finite s m e =>
      let n := nearest_scaled 100 m e in
      (if s then "-" else "") +:+ str_int (n / 100) +:+ "." +:+ two_digits (n mod 100)
  end.

(** [str(x)] of a float that holds a whole number below [1e16]: its digits
    and [".0"].  The only floats printed this way are the tier factors
    times 100 (lemma [factor_percent_whole] below). *)
Definition str_whole (x : float) : string :=
  match round_float x with
  | Ok n => str_int n +:+ ".0"
  | Raise _ => fmt_2f x
  end.

(** [round(x, 2)]: the decimal [fmt_2f] prints, read back as a float;
    infinities and NaN are returned as they are. *)
Definition round_2 (x : float) : float :=
  match Prim2SF x with
  | S754_finite s m e =>
      match nearest_scaled 100 m e with
      | Zpos p =>
          SF2Prim (SFdiv prec emax (S754_finite s p 0) (S754_finite false 100 0))
      | _ => SF2Prim (S754_zero s)
      end
  | _ => x
  end.

End Py.

Notation "'let*' x ':=' c 'in' k" := (Py.bind c (fun x => k))
  (at level 10, x name, c at level 100, k at level 200).

(** ** The data model *)

(** A numeric field of a campaign record as [pd.to_numeric(errors='coerce')]
    reads it. *)
Inductive cell : Set :=
| Num (x : float)
| NotNum.

Module Campaign.
Record t : Set := mk {
  campaign_id : string;
  cost : cell;
  impression : cell;
  click : cell;
  action : cell;
  purchase : cell;
  purchase_value : cell;
  create_time : option Z
}.
End Campaign.

(** A value of the request body. *)
Inductive value : Set :=
| VNone
| VBool (b : bool)
| VNum (x : float)
| VStr (s : string)
| VCampaigns (l : list Campaign.t).

(** [bool(v)], as [not] and [all] take it. *)
Definition truthy (v : value) : bool :=
  match v with
  | VNone => false
  | VBool b => b
  | VNum x => negb (x =? 0)%float
  | VStr s => negb (String.eqb s "")
  | VCampaigns l => negb (Nat.eqb (length l) 0)
  end.

(** A row of the DataFrame once the metrics are computed. *)
Module Row.
Record t : Set := mk {
  campaign_id : string;
  cost : float;
  impression : float;
  click : float;
  action : float;
  purchase : float;
  purchase_value : float;
  roas : float;
  cpc : float;
  cpa : float;
  create_time_dt : option Z
}.
End Row.

Inductive status_t : Set := unchanged | increased | decreased.

Definition status_eqb (a b : status_t) : bool :=
  match a, b with
  | unchanged, unchanged | increased, increased | decreased, decreased => true
  | _, _ => false
  end.

(** The three variables the rules of the loop body assign. *)
Record locals : Set := mkLocals {
  new_budget : Py.num;
  reason : string;
  status : status_t
}.

(** The dictionary appended to [results]. *)
Module Decision.
Record t : Set := mk {
  campaign_id : string;
  old_budget : float;
  new_budget : float;
  adjustment_amount : float;
  adjustment_percent : Py.num;
  status : status_t;
  reason : string;
  key_metric_value : string
}.
End Decision.

(** What [analyze_campaigns] returns: the error dictionary or the list. *)
Inductive analysis : Set :=
| ErrorDict (error : string)
| Results (results : list Decision.t).

(** ** get_adjustment_percentage_rules *)

Definition get_adjustment_percentage_rules (daily_spend : float) : float :=
  if (daily_spend <=? 50)%float then 2.0%float
  else if (50 <? daily_spend)%float && (daily_spend <=? 100)%float then 1.0%float
  else if (100 <? daily_spend)%float && (daily_spend <=? 500)%float then 0.5%float
  else 0.3%float.

(** ** analyze_campaigns *)

(** [pd.to_numeric(df[col], errors='coerce').fillna(0)] on one field. *)
Definition to_numeric_fillna (c : cell) : float :=
  match c with
  | Num x => if is_nan x then 0%float else x
  | NotNum => 0%float
  end.

Definition compute_roas (purchase_value cost : float) : float :=
  if Py.gtb cost 0 then (purchase_value / cost)%float else 0%float.

Definition compute_cpc (cost click : float) : float :=
  if Py.gtb click 0 then (cost / click)%float else infinity.

Definition compute_cpa (cost action : float) : float :=
  if Py.gtb action 0 then (cost / action)%float else infinity.

(** The preprocessing of one record: the six coerced columns, the three
    metrics and the parsed creation time. *)
Definition prepare (c : Campaign.t) : Row.t :=
  let cost := to_numeric_fillna (Campaign.cost c) in
  let impression := to_numeric_fillna (Campaign.impression c) in
  let click := to_numeric_fillna (Campaign.click c) in
  let action := to_numeric_fillna (Campaign.action c) in
  let purchase := to_numeric_fillna (Campaign.purchase c) in
  let purchase_value := to_numeric_fillna (Campaign.purchase_value c) in
  Row.mk (Campaign.campaign_id c) cost impression click action purchase
    purchase_value
    (compute_roas purchase_value cost)
    (compute_cpc cost click)
    (compute_cpa cost action)
    (Campaign.create_time c).

(** The eight accumulators of numpy's unrolled summation loop. *)
Record acc8 : Set := mkAcc8 {
  r0 : float; r1 : float; r2 : float; r3 : float;
  r4 : float; r5 : float; r6 : float; r7 : float
}.

(** [r[j] += a[i + j]] over the full blocks of eight; what is left of the
    array has fewer than eight values. *)
Fixpoint accumulate (r : acc8) (a : list float) : acc8 * list float :=
  match a with
  | a0 :: a1 :: a2 :: a3 :: a4 :: a5 :: a6 :: a7 :: rest =>
      accumulate
        (mkAcc8 (r0 r + a0) (r1 r + a1) (r2 r + a2) (r3 r + a3)
           (r4 r + a4) (r5 r + a5) (r6 r + a6) (r7 r + a7))%float
        rest
  | _ => (r, a)
  end.

Definition sum_acc8 (r : acc8) : float :=
  (((r0 r + r1 r) + (r2 r + r3 r)) + ((r4 r + r5 r) + (r6 r + r7 r)))%float.

(** numpy's pairwise sum of a float64 array: a plain loop below eight
    values, eight accumulators up to the block size 128, and above it the
    sums of two parts, the first of [n / 2] values less [(n / 2) % 8].
    [fuel] bounds the depth of the split ([pairwise_sum_fuel] below: the
    length of the array is enough). *)
Fixpoint pairwise_sum (fuel : nat) (a : list float) : float :=
  match a with
  | a0 :: a1 :: a2 :: a3 :: a4 :: a5 :: a6 :: a7 :: rest =>
      let n := length a in
      match fuel with
      | S fuel' =>
          if Nat.leb n 128 then
            let '(r, tail) := accumulate (mkAcc8 a0 a1 a2 a3 a4 a5 a6 a7) rest in
            fold_left PrimFloat.add tail (sum_acc8 r)
          else
            let n2 := (Nat.div n 2 - Nat.modulo (Nat.div n 2) 8)%nat in
            (pairwise_sum fuel' (firstn n2 a) + pairwise_sum fuel' (skipn n2 a))%float
      | O => nan
      end
  | _ => fold_left PrimFloat.add a (-0)%float
  end.

(** [values.sum()] of a float64 array. *)
Definition np_sum (a : list float) : float :=
  (0 + pairwise_sum (length a) a)%float.

(** [Series.mean()]: the NaN entries are not counted and are added as [0.0];
    the mean of nothing is NaN. *)
Definition mean (l : list float) : float :=
  match filter (fun x => negb (is_nan x)) l with
  | [] => nan
  | counted =>
      (np_sum (map (fun x => if is_nan x then 0 else x) l)
       / Py.float_of_Z (Z.of_nat (length counted)))%float
  end.

(** [df[df['cpc'] != np.inf]['cpc'].mean()] *)
Definition avg_cpc_valid (df : list Row.t) : float :=
  mean (filter (fun x => negb (x =? infinity)%float) (map Row.cpc df)).

(** [timedelta(hours=24)] in nanoseconds. *)
Definition hours_24 : Z := 24 * 3600 * 1000000000.

(** [pd.notna(create_time) and (now - create_time) < timedelta(hours=24)] *)
Definition is_new (now : Z) (create_time : option Z) : bool :=
  match create_time with
  | Some t => now - t <? hours_24
  | None => false
  end.

(** [target_roas / 100.0] *)
Definition div_100 (target_roas : value) : Py.result float :=
  match target_roas with
  | VNum x => Py.Ok (x / 100.0)%float
  | VBool b => Py.Ok ((if b then 1 else 0) / 100.0)%float
  | _ => Py.Raise Py.TypeError
  end.

Definition default_reason : string :=
  "表现平稳或不满足调整条件，维持预算。".
Definition suppressed_note : string :=
  " 但因调整金额小于$5，故维持不变。".
Definition low_budget_warning : string :=
  " 预算已非常低，建议观察后考虑暂停。".

(** Rule 1, the body of the branch for a campaign created within 24 hours. *)
Definition rule_new (avg_cpc_all cpc current_budget : float) (v : locals)
  : Py.result locals :=
  if Py.gtb cpc (avg_cpc_all * 1.3)%float then
    let* n := Py.round (Py.max_1 (current_budget * 0.5)%float) in
    Py.Ok (mkLocals (Py.Int n)
             ("新广告(24h内): CPC (" +:+ Py.fmt_2f cpc +:+ ") 高于平均值 ("
                +:+ Py.fmt_2f avg_cpc_all +:+ ") 的30%，降低预算50%。")
             decreased)
  else
    Py.Ok (mkLocals (new_budget v) "新广告(24h内): 表现正常，维持预算观察。" unchanged).

(** Rule 2, the [else] branch: scaling on ROAS against the target. *)
Definition rule_roas (target_roas : value) (roas current_budget : float)
  (v : locals) : Py.result locals :=
  let* target_roas_value := div_100 target_roas in
  if Py.gtb roas (target_roas_value * 1.2)%float then
    let max_increase_factor := get_adjustment_percentage_rules current_budget in
    let increase_amount := (current_budget * max_increase_factor)%float in
    let* n := Py.round (Py.Float (current_budget + increase_amount)%float) in
    Py.Ok (mkLocals (Py.Int n)
             ("ROAS表现出色(" +:+ Py.fmt_2f roas +:+ ")，高于目标("
                +:+ Py.fmt_2f target_roas_value
                +:+ ")。根据其消耗水平，预算上限可增加"
                +:+ Py.str_whole (max_increase_factor * 100)%float
                +:+ "%，增加预算至 " +:+ Py.str_int n +:+ "。")
             increased)
  else if (0 <? roas)%float && (roas <? target_roas_value * 0.8)%float then
    let* n := Py.round (Py.max_1 (current_budget * 0.7)%float) in
    Py.Ok (mkLocals (Py.Int n)
             ("ROAS表现不佳(" +:+ Py.fmt_2f roas +:+ ")，低于目标("
                +:+ Py.fmt_2f target_roas_value +:+ ")。削减预算30%。")
             decreased)
  else Py.Ok v.

(** Rules 1 and 2 from the defaults of the loop body. *)
Definition apply_rules (now : Z) (target_roas : value) (avg_cpc_all : float)
  (row : Row.t) : Py.result locals :=
  let current_budget := Row.cost row in
  let v := mkLocals (Py.Float current_budget) default_reason unchanged in
  if is_new now (Row.create_time_dt row)
  then rule_new avg_cpc_all (Row.cpc row) current_budget v
  else rule_roas target_roas (Row.roas row) current_budget v.

(** [abs(new_budget - current_budget) < 5] *)
Definition small_change (new_budget : Py.num) (current_budget : float) : bool :=
  (abs (Py.sub_float new_budget current_budget) <? 5)%float.

(** Rule 3: a change of less than 5 is not made. *)
Definition rule_min_change (current_budget : float) (v : locals) : locals :=
  if small_change (new_budget v) current_budget then
    mkLocals (Py.Float current_budget)
      (if negb (status_eqb (status v) unchanged)
       then reason v +:+ suppressed_note else reason v)
      unchanged
  else v.

(** Rule 4: [new_budget = int(round(new_budget))] *)
Definition rule_integer (v : locals) : Py.result locals :=
  let* n := Py.round (new_budget v) in
  Py.Ok (mkLocals (Py.Int n) (reason v) (status v)).

(** [new_budget < max(current_budget * 0.2, 1)] for the integer of rule 4. *)
Definition below_floor (new_budget : Py.num) (current_budget : float) : bool :=
  match new_budget with
  | Py.Int n => Py.Z_ltb_num n (Py.max_1 (current_budget * 0.2)%float)
  | Py.Float x =>
      match Py.max_1 (current_budget * 0.2)%float with
      | Py.Int _ => (x <? 1)%float
      | Py.Float y => (x <? y)%float
      end
  end.

(** Rule 5: the advisory text for a budget that was cut very low. *)
Definition rule_low_budget (current_budget : float) (v : locals) : locals :=
  if below_floor (new_budget v) current_budget && status_eqb (status v) decreased
  then mkLocals (new_budget v) (reason v +:+ low_budget_warning) (status v)
  else v.

(** The dictionary built from the final values of the loop variables. *)
Definition assemble (row : Row.t) (v : locals) : Decision.t :=
  let current_budget := Row.cost row in
  Decision.mk
    (Row.campaign_id row)
    current_budget
    (Py.to_float (new_budget v))
    (Py.sub_float (new_budget v) current_budget)
    (if Py.gtb current_budget 0
     then Py.Float (Py.round_2 (Py.sub_float (new_budget v) current_budget
                                  / current_budget * 100)%float)
     else Py.Int 0)
    (status v)
    (reason v)
    ("ROAS: " +:+ Py.fmt_2f (Row.roas row)).

(** The body of the loop for one row. *)
Definition decide_row (now : Z) (target_roas : value) (avg_cpc_all : float)
  (row : Row.t) : Py.result Decision.t :=
  let* v := apply_rules now target_roas avg_cpc_all row in
  let* v' := rule_integer (rule_min_change (Row.cost row) v) in
  Py.Ok (assemble row (rule_low_budget (Row.cost row) v')).

Definition analyze_campaigns (now : Z) (total_budget target_roas campaign_data : value)
  : Py.result analysis :=
  if negb (truthy campaign_data) then Py.Ok (ErrorDict "Campaign data is empty.")
  else
    match campaign_data with
    | VCampaigns l =>
        let df := map prepare l in
        let* results := Py.mapM (decide_row now target_roas (avg_cpc_valid df)) df in
        Py.Ok (Results results)
    | _ => Py.Raise Py.ValueError
    end.

(** ** analyze_budget_endpoint *)

(** The JSON document of a response. *)
Inductive payload : Set :=
| JsonError (error : string)
| JsonInternalError (details : Py.exn)
| JsonAnalysis (a : analysis).

Record response : Set := mkResponse {
  json : payload;
  code : Z
}.

Definition missing_parameters : string :=
  "Missing required parameters: total_budget, target_roas, campaign_data".

(** [data.get(key)] *)
Definition get (data : gmap string value) (key : string) : value :=
  default VNone (data !! key).

(** The handler of [POST /analyze_budget]; [data] is what
    [request.get_json()] returned, a JSON object or [None]. *)
Definition analyze_budget_endpoint (now : Z) (data : option (gmap string value))
  : response :=
  match data with
  | None => mkResponse (JsonError "Invalid JSON") 400
  | Some data =>
      if Nat.eqb (size data) 0 then mkResponse (JsonError "Invalid JSON") 400
      else
        let total_budget := get data "total_budget" in
        let target_roas := get data "target_roas" in
        let campaign_data := get data "campaign_data" in
        if negb (forallb truthy [total_budget; target_roas; campaign_data])
        then mkResponse (JsonError missing_parameters) 400
        else
          match analyze_campaigns now total_budget target_roas campaign_data with
          | Py.Ok analysis_result => mkResponse (JsonAnalysis analysis_result) 200
          | Py.Raise e => mkResponse (JsonInternalError e) 500
          end
  end.

(** ** Notions used in the statements and proofs *)

(** [s.endswith(w)] *)
Definition ends_with (w s : string) : bool :=
  String.prefix (String.rev w) (String.rev s).

(** The coerced spend of a record, which the loop calls [current_budget]. *)
Definition current_budget_of (c : Campaign.t) : float :=
  to_numeric_fillna (Campaign.cost c).

(** The order of [SFcompare] is the lexicographic order of these keys. *)
Definition key (x : spec_float) : option (Z * Z * Z) :=
  match x with
  | S754_nan => None
  | S754_infinity s => Some (if s then -2 else 2, 0, 0)
  | S754_zero _ => Some (0, 0, 0)
  | S754_finite s m e => Some (if s then (-1, - e, Zneg m) else (1, e, Zpos m))
  end.

Definition lex (p q : Z * Z * Z) : comparison :=
  let '(a, b, c) := p in
  let '(a', b', c') := q in
  match a ?= a' with
  | Eq => match b ?= b' with Eq => c ?= c' | r => r end
  | r => r
  end.

(** Zero of either sign, a positive number or [+inf]. *)
Definition nonneg (x : spec_float) : bool :=
  match x with
  | S754_zero _ => true
  | S754_infinity s | S754_finite s _ _ => negb s
  | S754_nan => false
  end.

Definition nonneg_or_nan (x : spec_float) : bool :=
  match x with
  | S754_nan => true
  | _ => nonneg x
  end.

Definition has_sign (s : bool) (x : spec_float) : Prop :=
  match x with
  | S754_zero s' | S754_infinity s' | S754_finite s' _ _ => s' = s
  | S754_nan => True
  end.

Definition num_nonneg (v : Py.num) : Prop :=
  match v with
  | Py.Int n => 0 <= n
  | Py.Float x => nonneg_or_nan (Prim2SF x) = true
  end.

(** The six fields of [numeric_cols], and their columns in a row. *)
Definition numeric_fields (c : Campaign.t) : list cell :=
  [Campaign.cost c; Campaign.impression c; Campaign.click c; Campaign.action c;
   Campaign.purchase c; Campaign.purchase_value c].

Definition numeric_columns (r : Row.t) : list float :=
  [Row.cost r; Row.impression r; Row.click r; Row.action r; Row.purchase r;
   Row.purchase_value r].

(** A record without a click: [click > 0] is false after coercion. *)
Definition no_click (c : Campaign.t) : Prop :=
  Py.gtb (to_numeric_fillna (Campaign.click c)) 0 = false.

(** Two records that agree on the fields the loop reads: the identifier,
    the cost, the clicks, the purchase value and the creation time. *)
Definition same_used_fields (c c' : Campaign.t) : Prop :=
  Campaign.campaign_id c = Campaign.campaign_id c'
  /\ Campaign.cost c = Campaign.cost c'
  /\ Campaign.click c = Campaign.click c'
  /\ Campaign.purchase_value c = Campaign.purchase_value c'
  /\ Campaign.create_time c = Campaign.create_time c'.

(** The text rules 3 and 5 may add to the reason of rules 1 and 2. *)
Inductive trail (rule_reason : string) (st : status_t) : string -> Prop :=
| trail_plain : trail rule_reason st rule_reason
| trail_suppressed :
    st = unchanged -> trail rule_reason st (rule_reason +:+ suppressed_note)
| trail_low_budget :
    st = decreased -> trail rule_reason st (rule_reason +:+ low_budget_warning).

(** *** Sample inputs *)

(** A clock reading, in nanoseconds. *)
Definition sample_now : Z := 1700000000 * 1000000000.

(** A campaign with no creation time, hence an established one. *)
Definition established (id : string) (cost purchase_value : float) : Campaign.t :=
  Campaign.mk id (Num cost) (Num 1000) (Num 10) (Num 3) (Num 2)
    (Num purchase_value) None.

(** A campaign created two hours before [now] that has no click yet. *)
Definition fresh_without_clicks (now : Z) : Campaign.t :=
  Campaign.mk "N" (Num 100) (Num 1000) (Num 0) (Num 0) (Num 0) (Num 0)
    (Some (now - 2 * 3600 * 1000000000)).

(** A request body with the three parameters and one campaign. *)
Definition sample_body (total_budget : value) : gmap string value :=
  <["total_budget" := total_budget]>
    (<["target_roas" := VNum 150]>
       (<["campaign_data" := VCampaigns [established "B" 40 80]]> ∅)).

(** ** Facts on binary64 numbers *)

Lemma Prim2SF_zero : Prim2SF 0 = S754_zero false.
Proof. reflexivity. Qed.

Lemma eqb_zero_not_pos (x : float) :
  (x =? 0)%float = true -> (0 <? x)%float = false.
Proof.
  rewrite FloatAxioms.eqb_spec, FloatAxioms.ltb_spec, Prim2SF_zero.
  destruct (Prim2SF x) as [s|s| |s m e]; cbn; try discriminate; try reflexivity.
  all: destruct s; discriminate.
Qed.

Lemma SFcompare_antisym (a b : spec_float) :
  SFcompare b a = option_map CompOpp (SFcompare a b).
Proof.
  destruct a as [sa|sa| |sa ma ea], b as [sb|sb| |sb mb eb]; cbn; try reflexivity;
    try (destruct sa; reflexivity); try (destruct sb; reflexivity);
    try (destruct sa, sb; reflexivity).
  destruct sa, sb; cbn; try reflexivity; f_equal.
  all: rewrite (Z.compare_antisym ea eb); destruct (ea ?= eb); cbn; try reflexivity.
  all: change (Pos.compare_cont Eq mb ma) with (Pos.compare mb ma);
       change (Pos.compare_cont Eq ma mb) with (Pos.compare ma mb);
       rewrite (Pos.compare_antisym ma mb); destruct (ma ?= mb)%positive; reflexivity.
Qed.

Lemma ltb_not_leb (a b : float) :
  (a <? b)%float = true -> (b <=? a)%float = false.
Proof.
  rewrite FloatAxioms.ltb_spec, FloatAxioms.leb_spec. unfold SFltb, SFleb.
  rewrite (SFcompare_antisym (Prim2SF a) (Prim2SF b)).
  destruct (SFcompare (Prim2SF a) (Prim2SF b)) as [[]|]; cbn; congruence.
Qed.

Lemma SFcompare_key (x y : spec_float) :
  SFcompare x y =
  match key x, key y with
  | Some p, Some q => Some (lex p q)
  | _, _ => None
  end.
Proof.
  destruct x as [sx|sx| |sx mx ex], y as [sy|sy| |sy my ey]; cbn; try reflexivity;
    try (destruct sx; reflexivity); try (destruct sy; reflexivity);
    try (destruct sx, sy; reflexivity).
  destruct sx, sy; cbn; try reflexivity; f_equal.
  rewrite Z.compare_opp, (Z.compare_antisym ex ey).
  destruct (ex ?= ey); reflexivity.
Qed.

Lemma lex_trans_lt_le p q r :
  lex p q = Lt -> lex q r <> Gt -> lex p r = Lt.
Proof.
  destruct p as [[a b] c], q as [[a' b'] c'], r as [[a'' b''] c'']. unfold lex.
  destruct (Z.compare_spec a a'), (Z.compare_spec a' a''), (Z.compare_spec a a'');
    try discriminate; try congruence; try lia;
  destruct (Z.compare_spec b b'), (Z.compare_spec b' b''), (Z.compare_spec b b'');
    try discriminate; try congruence; try lia;
  destruct (Z.compare_spec c c'), (Z.compare_spec c' c''), (Z.compare_spec c c'');
    try discriminate; try congruence; try lia.
Qed.

Lemma ltb_leb_trans (a b c : float) :
  (a <? b)%float = true -> (b <=? c)%float = true -> (a <? c)%float = true.
Proof.
  rewrite !FloatAxioms.ltb_spec, FloatAxioms.leb_spec. unfold SFltb, SFleb. rewrite !SFcompare_key.
  destruct (key (Prim2SF a)) as [p|], (key (Prim2SF b)) as [q|],
    (key (Prim2SF c)) as [r|]; try discriminate.
  intros H1 H2. rewrite (lex_trans_lt_le p q r); [reflexivity| |].
  - destruct (lex p q); congruence.
  - destruct (lex q r); congruence.
Qed.

Lemma ltb_asym (a b : float) : (a <? b)%float = true -> (b <? a)%float = false.
Proof.
  rewrite !FloatAxioms.ltb_spec. unfold SFltb.
  rewrite (SFcompare_antisym (Prim2SF a) (Prim2SF b)).
  destruct (SFcompare (Prim2SF a) (Prim2SF b)) as [[]|]; cbn; congruence.
Qed.

Lemma lex_refl p : lex p p = Eq.
Proof. destruct p as [[a b] c]. unfold lex. now rewrite !Z.compare_refl. Qed.

Lemma ltb_not_nan (x y : float) : (x <? y)%float = true -> is_nan x = false.
Proof.
  unfold is_nan. rewrite FloatAxioms.ltb_spec, FloatAxioms.eqb_spec.
  unfold SFltb, SFeqb. rewrite !SFcompare_key.
  destruct (key (Prim2SF x)) as [p|]; [|discriminate].
  now rewrite lex_refl.
Qed.

(** *** Signs *)

Lemma binary_round_aux_sign s m e l :
  has_sign s (binary_round_aux prec emax s m e l).
Proof.
  unfold binary_round_aux.
  destruct (shr_fexp prec emax m e l) as [mrs e'].
  destruct (shr_fexp prec emax _ e' loc_Exact) as [mrs' e''].
  destruct (shr_m mrs'); cbn; trivial.
  destruct (e'' <=? _); cbn; trivial.
Qed.

Lemma binary_round_sign s m e : has_sign s (binary_round prec emax s m e).
Proof.
  unfold binary_round. destruct (shl_align m e _) as [mz ez].
  apply binary_round_aux_sign.
Qed.

Lemma has_sign_false_nonneg x : has_sign false x -> nonneg_or_nan x = true.
Proof. destruct x; cbn; intros; subst; reflexivity. Qed.

Lemma nonneg_weaken x : nonneg x = true -> nonneg_or_nan x = true.
Proof. destruct x; cbn; congruence. Qed.

Ltac nonneg_cases a b :=
  let sa := fresh "sa" in
  let sb := fresh "sb" in
  intros Ha Hb;
  destruct a as [sa|sa| |sa ?ma ?ea], b as [sb|sb| |sb ?mb ?eb];
  cbn in Ha, Hb; try discriminate;
  try (destruct sa; try discriminate); try (destruct sb; try discriminate);
  try reflexivity; clear Ha Hb.

Lemma SFmul_nonneg a b :
  nonneg_or_nan a = true -> nonneg_or_nan b = true ->
  nonneg_or_nan (SF64mul a b) = true.
Proof.
  nonneg_cases a b.
  apply has_sign_false_nonneg, (binary_round_aux_sign false).
Qed.

Lemma SFdiv_nonneg a mb eb :
  nonneg_or_nan a = true ->
  nonneg_or_nan (SF64div a (S754_finite false mb eb)) = true.
Proof.
  destruct a as [sa|sa| |sa ma ea]; cbn; trivial; destruct sa; try discriminate;
    trivial; intros _.
  destruct (SFdiv_core_binary _ _ _ _ _ _) as [[mz ez] lz].
  apply has_sign_false_nonneg, (binary_round_aux_sign false).
Qed.

Lemma SFadd_nonneg a b :
  nonneg_or_nan a = true -> nonneg_or_nan b = true ->
  nonneg_or_nan (SF64add a b) = true.
Proof.
  nonneg_cases a b.
  apply has_sign_false_nonneg, (binary_round_sign false).
Qed.

Lemma leb_zero_nonneg (x : float) :
  (0 <=? x)%float = true -> nonneg (Prim2SF x) = true.
Proof.
  rewrite FloatAxioms.leb_spec, Prim2SF_zero.
  destruct (Prim2SF x) as [s|s| |s m e]; cbn; trivial; destruct s; trivial.
Qed.

Lemma eqb_zero_inv (x : float) :
  (x =? 0)%float = true -> exists s, Prim2SF x = S754_zero s.
Proof.
  rewrite FloatAxioms.eqb_spec, Prim2SF_zero.
  destruct (Prim2SF x) as [s|[]| |[] m e]; try discriminate. eauto.
Qed.

Lemma nonneg_not_below_zero (t x : float) :
  nonneg_or_nan (Prim2SF t) = true -> (x =? 0)%float = true ->
  (t <? x)%float = false.
Proof.
  intros Ht Hx. apply eqb_zero_inv in Hx as [s Hs].
  rewrite FloatAxioms.ltb_spec, Hs.
  destruct (Prim2SF t) as [s'|[]| |[] m e]; try discriminate; reflexivity.
Qed.

(** The thresholds of a non-negative target are not negative. *)
Lemma threshold_nonneg (target k : float) :
  (0 <=? target)%float = true -> nonneg (Prim2SF k) = true ->
  nonneg_or_nan (Prim2SF (target / 100.0 * k)) = true.
Proof.
  intros Ht Hk. rewrite mul_spec, div_spec.
  apply SFmul_nonneg; [|now apply nonneg_weaken].
  change (Prim2SF 100.0) with (S754_finite false 7036874417766400 (-46)).
  apply SFdiv_nonneg, nonneg_weaken, leb_zero_nonneg, Ht.
Qed.

(** *** Rounding to an integer *)

Lemma round_half_even_nonneg num den :
  0 <= num -> 0 < den -> 0 <= Py.round_half_even num den.
Proof.
  intros Hn Hd. unfold Py.round_half_even.
  assert (0 <= num / den) by (apply Z.div_pos; lia).
  destruct (2 * (num mod den) ?= den); [destruct (Z.even _)| |]; lia.
Qed.

Lemma nearest_scaled_nonneg k m e : 0 <= k -> 0 <= Py.nearest_scaled k m e.
Proof.
  intros Hk. destruct e as [|p|p]; cbn [Py.nearest_scaled].
  - lia.
  - assert (0 < 2 ^ Z.pos p) by (apply Z.pow_pos_nonneg; lia). nia.
  - apply round_half_even_nonneg; [nia|]. apply Z.pow_pos_nonneg; lia.
Qed.

Lemma round_float_nonneg x n :
  nonneg_or_nan (Prim2SF x) = true -> Py.round_float x = Py.Ok n -> 0 <= n.
Proof.
  unfold Py.round_float.
  destruct (Prim2SF x) as [s|s| |s m e]; cbn; intros Hs Hn; try discriminate.
  - injection Hn as <-. lia.
  - injection Hn as <-. destruct s; [discriminate|]. cbn.
    apply nearest_scaled_nonneg. lia.
Qed.

Lemma Prim2SF_one : Prim2SF 1 = S754_finite false 4503599627370496 (-52).
Proof. reflexivity. Qed.

(** [round(max(x, 1))] is at least 1 when it returns. *)
Lemma round_max_1_pos x n : Py.round (Py.max_1 x) = Py.Ok n -> 0 <= n.
Proof.
  unfold Py.max_1, Py.gtb. destruct (x <? 1)%float eqn:Hlt; cbn [Py.round].
  - intros [= <-]. lia.
  - apply round_float_nonneg.
    rewrite FloatAxioms.ltb_spec, Prim2SF_one in Hlt.
    destruct (Prim2SF x) as [s|[]| |[] m e]; try reflexivity;
      unfold SFltb, SFcompare in Hlt; discriminate.
Qed.

(** A change below 5 is only seen on a finite budget. *)
Lemma small_change_finite nb cb :
  small_change nb cb = true -> exists n, Py.round_float cb = Py.Ok n.
Proof.
  unfold small_change, Py.sub_float, Py.round_float.
  rewrite FloatAxioms.ltb_spec, abs_spec, sub_spec.
  generalize (Prim2SF 5). intros five.
  destruct (Prim2SF cb) as [s|s| |s m e]; eauto;
    destruct (Prim2SF (Py.to_float nb)) as [s'|s'| |s' m' e'];
    try (destruct s, s'); destruct five as [?|[]| |[] ? ?]; discriminate.
Qed.

(** *** The tier factor *)

Lemma factor_cases d :
  let f := get_adjustment_percentage_rules d in
  f = 2.0%float \/ f = 1.0%float \/ f = 0.5%float \/ f = 0.3%float.
Proof.
  unfold get_adjustment_percentage_rules.
  destruct (d <=? 50)%float; [tauto|].
  destruct ((50 <? d)%float && (d <=? 100)%float); [tauto|].
  destruct ((100 <? d)%float && (d <=? 500)%float); tauto.
Qed.

Lemma factor_nonneg d : nonneg (Prim2SF (get_adjustment_percentage_rules d)) = true.
Proof.
  destruct (factor_cases d) as [-> | [-> | [-> | ->]]]; reflexivity.
Qed.

(** The percentage printed in the reason of an increase is a whole number. *)
Lemma factor_percent_whole d :
  In (Py.str_whole (get_adjustment_percentage_rules d * 100)%float)
    ["200.0"; "100.0"; "50.0"; "30.0"].
Proof.
  destruct (factor_cases d) as [-> | [-> | [-> | ->]]]; vm_compute; tauto.
Qed.

Lemma above_not_leb (a b d : float) :
  (b <? a)%float = false -> (b <? d)%float = true -> (d <=? a)%float = false.
Proof.
  intros Hab Hbd. destruct (d <=? a)%float eqn:Hda; [|reflexivity].
  rewrite (ltb_leb_trans b d a Hbd Hda) in Hab. discriminate.
Qed.

Lemma factor_tiers d :
  ((d <=? 50)%float = true -> get_adjustment_percentage_rules d = 2.0%float)
  /\ ((50 <? d)%float = true -> (d <=? 100)%float = true ->
      get_adjustment_percentage_rules d = 1.0%float)
  /\ ((100 <? d)%float = true -> (d <=? 500)%float = true ->
      get_adjustment_percentage_rules d = 0.5%float)
  /\ ((500 <? d)%float = true -> get_adjustment_percentage_rules d = 0.3%float).
Proof.
  unfold get_adjustment_percentage_rules. repeat split.
  - now intros ->.
  - intros H1 H2. now rewrite (ltb_not_leb _ _ H1), H1, H2.
  - intros H1 H2.
    rewrite (above_not_leb 50 100 d eq_refl H1), (ltb_not_leb _ _ H1), H1, H2.
    now rewrite andb_false_r.
  - intros H1.
    rewrite (above_not_leb 50 500 d eq_refl H1), (above_not_leb 100 500 d eq_refl H1),
      (ltb_not_leb _ _ H1).
    now rewrite !andb_false_r.
Qed.

(** *** The integers of the program fit a float *)

Lemma digits2_pos_bound m : Zpos m < 2 ^ Zpos (digits2_pos m).
Proof.
  induction m as [p IH|p IH|]; cbn [digits2_pos]; [| |reflexivity];
    rewrite Pos2Z.inj_succ, Z.pow_succ_r by lia; lia.
Qed.

Lemma round_half_even_le num den :
  0 <= num -> 2 <= den -> Py.round_half_even num den <= num.
Proof.
  intros Hn Hd. unfold Py.round_half_even.
  pose proof (Z.div_mod num den ltac:(lia)) as Hdm.
  pose proof (Z.mod_pos_bound num den ltac:(lia)) as Hr.
  assert (0 <= num / den) by (apply Z.div_pos; lia).
  destruct (Z.compare_spec (2 * (num mod den)) den) as [He|Hl|Hg].
  - destruct (Z.even (num / den)) eqn:Hev; [nia|].
    assert (num / den <> 0) by (intros E; rewrite E in Hev; discriminate). nia.
  - nia.
  - nia.
Qed.

(** [round] of a float stays below [2^1024], so [float(n)] of its result
    never overflows. *)
Lemma round_float_bound x n :
  Py.round_float x = Py.Ok n -> Z.abs n < 2 ^ 1024.
Proof.
  unfold Py.round_float. pose proof (Prim2SF_valid x) as Hv.
  destruct (Prim2SF x) as [s|s| |s m e]; try discriminate.
  - intros [= <-]. reflexivity.
  - intros [= <-].
    unfold SpecFloat.valid_binary, bounded, canonical_mantissa, fexp in Hv.
    apply andb_true_iff in Hv as [Hc He].
    apply Z.eqb_eq in Hc. apply Z.leb_le in He.
    change (emax - prec) with 971 in He. change prec with 53 in Hc.
    pose proof (digits2_pos_bound m) as Hm.
    assert (Hd : Zpos (digits2_pos m) <= 53) by lia.
    assert (Hm53 : Zpos m < 2 ^ 53).
    { eapply Z.lt_le_trans; [exact Hm|]. apply Z.pow_le_mono_r; lia. }
    assert (Hb : 0 <= Py.nearest_scaled 1 m e < 2 ^ 1024).
    { split; [apply nearest_scaled_nonneg; lia|].
      destruct e as [|p|p]; cbn [Py.nearest_scaled].
      - change (2 ^ 0) with 1. 
        assert (2 ^ 53 < 2 ^ 1024) by (apply Z.pow_lt_mono_r; lia). lia.
      - assert (Hp : 2 ^ Zpos p <= 2 ^ 971) by (apply Z.pow_le_mono_r; lia).
        assert (0 < 2 ^ Zpos p) by (apply Z.pow_pos_nonneg; lia).
        replace (2 ^ 1024) with (2 ^ 53 * 2 ^ 971)
          by (rewrite <- Z.pow_add_r by lia; reflexivity).
        nia.
      - assert (2 <= 2 ^ Zpos p).
        { change 2 with (2 ^ 1) at 1. apply Z.pow_le_mono_r; lia. }
        pose proof (round_half_even_le (1 * Zpos m) (2 ^ Zpos p) ltac:(lia) ltac:(lia)).
        assert (2 ^ 53 < 2 ^ 1024) by (apply Z.pow_lt_mono_r; lia). lia. }
    destruct s; cbn [cond_Zopp]; lia.
Qed.

(** *** The fuel of the pairwise sum *)

(** Any fuel from the length of the array on gives the same sum: the split
    is only made above 128 values and both parts are shorter. *)
Lemma pairwise_sum_fuel (f1 f2 : nat) (a : list float) :
  (length a <= f1)%nat -> (length a <= f2)%nat ->
  pairwise_sum f1 a = pairwise_sum f2 a.
Proof.
  revert f2 a. induction f1 as [|f1 IH]; intros f2 a H1 H2.
  - destruct a; [destruct f2; reflexivity|cbn in H1; lia].
  - destruct a as [|a0 [|a1 [|a2 [|a3 [|a4 [|a5 [|a6 [|a7 rest]]]]]]]];
      try (destruct f2; reflexivity).
    destruct f2 as [|f2]; [cbn in H2; lia|].
    set (a := a0 :: a1 :: a2 :: a3 :: a4 :: a5 :: a6 :: a7 :: rest) in *.
    change (pairwise_sum (S f1) a)
      with (if Nat.leb (length a) 128
            then let '(r, tail) := accumulate (mkAcc8 a0 a1 a2 a3 a4 a5 a6 a7) rest in
                 fold_left PrimFloat.add tail (sum_acc8 r)
            else (pairwise_sum f1
                    (firstn (Nat.div (length a) 2
                             - Nat.modulo (Nat.div (length a) 2) 8)%nat a)
                  + pairwise_sum f1
                      (skipn (Nat.div (length a) 2
                              - Nat.modulo (Nat.div (length a) 2) 8)%nat a))%float).
    change (pairwise_sum (S f2) a)
      with (if Nat.leb (length a) 128
            then let '(r, tail) := accumulate (mkAcc8 a0 a1 a2 a3 a4 a5 a6 a7) rest in
                 fold_left PrimFloat.add tail (sum_acc8 r)
            else (pairwise_sum f2
                    (firstn (Nat.div (length a) 2
                             - Nat.modulo (Nat.div (length a) 2) 8)%nat a)
                  + pairwise_sum f2
                      (skipn (Nat.div (length a) 2
                              - Nat.modulo (Nat.div (length a) 2) 8)%nat a))%float).
    destruct (Nat.leb (length a) 128) eqn:Hn; [reflexivity|].
    apply Nat.leb_gt in Hn.
    set (h := Nat.div (length a) 2) in *.
    assert (Hh : (64 <= h /\ h < length a)%nat).
    { unfold h. split.
      - apply Nat.div_le_lower_bound; lia.
      - apply Nat.div_lt; lia. }
    assert (Hm : (Nat.modulo h 8 < 8)%nat) by (apply Nat.mod_upper_bound; lia).
    rewrite (IH f2 (firstn (h - Nat.modulo h 8) a)),
      (IH f2 (skipn (h - Nat.modulo h 8) a));
      rewrite ?length_firstn, ?length_skipn; try lia.
    reflexivity.
Qed.

(** ** The structure of an evaluation *)

Create HintDb budget_sign discriminated.
#[local] Hint Resolve SFadd_nonneg SFmul_nonneg nonneg_weaken factor_nonneg
  : budget_sign.

Lemma bind_Ok_inv {A B : Type} (c : Py.result A) (k : A -> Py.result B) (b : B) :
  Py.bind c k = Py.Ok b -> exists a, c = Py.Ok a /\ k a = Py.Ok b.
Proof. destruct c as [a|e]; cbn; [eauto|discriminate]. Qed.

Lemma mapM_Forall2 {A B : Type} (f : A -> Py.result B) (l : list A) (r : list B) :
  Py.mapM f l = Py.Ok r -> Forall2 (fun a b => f a = Py.Ok b) l r.
Proof.
  revert r. induction l as [|a l IH]; cbn; intros r H.
  - injection H as <-. constructor.
  - apply bind_Ok_inv in H as (b & Hb & H).
    apply bind_Ok_inv in H as (bs & Hbs & H).
    injection H as <-. constructor; auto.
Qed.

Lemma Forall2_map_l {A B C : Type} (P : B -> C -> Prop) (g : A -> B) l r :
  Forall2 P (map g l) r -> Forall2 (fun a c => P (g a) c) l r.
Proof.
  revert r. induction l as [|a l IH]; cbn; intros r H; inversion H; subst;
    constructor; auto.
Qed.

(** Rule 5 assigns [reason] only. *)
Lemma rule_low_budget_frame cb v :
  new_budget (rule_low_budget cb v) = new_budget v
  /\ status (rule_low_budget cb v) = status v.
Proof. unfold rule_low_budget. destruct (_ && _); split; reflexivity. Qed.

Lemma round_nonneg v n : num_nonneg v -> Py.round v = Py.Ok n -> 0 <= n.
Proof.
  destruct v as [k|x]; cbn.
  - now intros ? [= <-].
  - apply round_float_nonneg.
Qed.

Lemma rule_min_change_nonneg cb v :
  nonneg (Prim2SF cb) = true ->
  num_nonneg (new_budget v) ->
  num_nonneg (new_budget (rule_min_change cb v)).
Proof.
  intros Hc Hv. unfold rule_min_change. destruct (small_change _ _); [|exact Hv].
  cbn. now apply nonneg_weaken.
Qed.

Lemma current_budget_nonneg c :
  (0 <=? current_budget_of c)%float = true ->
  nonneg (Prim2SF (Row.cost (prepare c))) = true.
Proof. apply leb_zero_nonneg. Qed.

(** The evaluation of one row, for a fixed clock, target and average. *)
Section OneRow.

Variable now : Z.
Variable target_roas : value.
Variable avg : float.

Lemma apply_rules_established row :
  is_new now (Row.create_time_dt row) = false ->
  apply_rules now target_roas avg row
  = rule_roas target_roas (Row.roas row) (Row.cost row)
      (mkLocals (Py.Float (Row.cost row)) default_reason unchanged).
Proof. unfold apply_rules. now intros ->. Qed.

Lemma apply_rules_new row :
  is_new now (Row.create_time_dt row) = true ->
  apply_rules now target_roas avg row
  = rule_new avg (Row.cpc row) (Row.cost row)
      (mkLocals (Py.Float (Row.cost row)) default_reason unchanged).
Proof. unfold apply_rules. now intros ->. Qed.

(** The emitted budget is the integer of rule 4, as a float. *)
Lemma decide_row_new_budget row d :
  decide_row now target_roas avg row = Py.Ok d ->
  exists v n,
    apply_rules now target_roas avg row = Py.Ok v
    /\ Py.round (new_budget (rule_min_change (Row.cost row) v)) = Py.Ok n
    /\ Decision.new_budget d = Py.float_of_Z n
    /\ Decision.old_budget d = Row.cost row
    /\ Decision.status d = status (rule_min_change (Row.cost row) v).
Proof.
  unfold decide_row. intros H.
  apply bind_Ok_inv in H as (v & Hv & H).
  apply bind_Ok_inv in H as (v' & Hv' & H). injection H as <-.
  unfold rule_integer in Hv'. apply bind_Ok_inv in Hv' as (n & Hn & Hv').
  injection Hv' as <-. exists v, n.
  destruct (rule_low_budget_frame (Row.cost row)
              (mkLocals (Py.Int n) (reason (rule_min_change (Row.cost row) v))
                 (status (rule_min_change (Row.cost row) v)))) as [Hb Hs].
  cbn in Hb, Hs. unfold assemble. cbn. rewrite Hb, Hs. cbn. auto.
Qed.

(** On a non-negative spend rules 1 and 2 give a non-negative budget. *)
Lemma apply_rules_nonneg row v :
  nonneg (Prim2SF (Row.cost row)) = true ->
  apply_rules now target_roas avg row = Py.Ok v ->
  num_nonneg (new_budget v).
Proof.
  intros Hc. unfold apply_rules, rule_new, rule_roas.
  destruct (is_new _ _).
  - destruct (Py.gtb _ _).
    + intros H. apply bind_Ok_inv in H as (n & Hn & H). injection H as <-.
      cbn. eapply round_max_1_pos, Hn.
    + intros [= <-]. cbn. auto with budget_sign.
  - intros H. apply bind_Ok_inv in H as (t & _ & H).
    destruct (Py.gtb _ _); [|destruct (_ && _)].
    + apply bind_Ok_inv in H as (n & Hn & H). injection H as <-.
      cbn. eapply round_float_nonneg; [|exact Hn].
      rewrite add_spec, mul_spec. auto with budget_sign.
    + apply bind_Ok_inv in H as (n & Hn & H). injection H as <-.
      cbn. eapply round_max_1_pos, Hn.
    + injection H as <-. cbn. auto with budget_sign.
Qed.

End OneRow.

(** A batch that evaluates gives each record the decision of its row, in
    order. *)
Lemma analyze_campaigns_rows now total_budget target_roas l results :
  analyze_campaigns now total_budget target_roas (VCampaigns l)
  = Py.Ok (Results results) ->
  Forall2 (fun c d =>
             decide_row now target_roas (avg_cpc_valid (map prepare l)) (prepare c)
             = Py.Ok d) l results.
Proof.
  unfold analyze_campaigns. destruct (negb (truthy (VCampaigns l))); [discriminate|].
  intros H. apply bind_Ok_inv in H as (rs & Hrs & H). injection H as <-.
  apply (Forall2_map_l (fun r d => decide_row now target_roas _ r = Py.Ok d) prepare).
  now apply mapM_Forall2.
Qed.

(** *** What a successful row evaluation went through *)

Lemma decide_row_inv now target_roas avg row d :
  decide_row now target_roas avg row = Py.Ok d ->
  exists v n,
    apply_rules now target_roas avg row = Py.Ok v
    /\ Py.round (new_budget (rule_min_change (Row.cost row) v)) = Py.Ok n
    /\ d = assemble row
             (rule_low_budget (Row.cost row)
                (mkLocals (Py.Int n)
                   (reason (rule_min_change (Row.cost row) v))
                   (status (rule_min_change (Row.cost row) v)))).
Proof.
  unfold decide_row. intros H.
  apply bind_Ok_inv in H as (v & Hv & H).
  apply bind_Ok_inv in H as (v' & Hv' & H). injection H as <-.
  unfold rule_integer in Hv'. apply bind_Ok_inv in Hv' as (n & Hn & Hv').
  injection Hv' as <-. eauto.
Qed.

(** How rules 1 and 2 can end, by the status they leave. *)
Lemma apply_rules_inv now target_roas avg row v :
  apply_rules now target_roas avg row = Py.Ok v ->
  let cb := Row.cost row in
  match status v with
  | unchanged => new_budget v = Py.Float cb
  | increased =>
      is_new now (Row.create_time_dt row) = false
      /\ exists t n,
          div_100 target_roas = Py.Ok t
          /\ Py.gtb (Row.roas row) (t * 1.2)%float = true
          /\ Py.round_float
               (cb + cb * get_adjustment_percentage_rules cb)%float = Py.Ok n
          /\ new_budget v = Py.Int n
  | decreased =>
      exists n,
        new_budget v = Py.Int n
        /\ ((is_new now (Row.create_time_dt row) = true
             /\ Py.gtb (Row.cpc row) (avg * 1.3)%float = true
             /\ Py.round (Py.max_1 (cb * 0.5)%float) = Py.Ok n)
            \/ (is_new now (Row.create_time_dt row) = false
                /\ exists t,
                    div_100 target_roas = Py.Ok t
                    /\ Py.gtb (Row.roas row) (t * 1.2)%float = false
                    /\ (0 <? Row.roas row)%float = true
                    /\ (Row.roas row <? t * 0.8)%float = true
                    /\ Py.round (Py.max_1 (cb * 0.7)%float) = Py.Ok n))
  end.
Proof.
  unfold apply_rules, rule_new, rule_roas.
  destruct (is_new now (Row.create_time_dt row)) eqn:Hnew.
  - destruct (Py.gtb (Row.cpc row) _) eqn:Hc.
    + intros H. apply bind_Ok_inv in H as (n & Hn & H). injection H as <-.
      cbn. exists n. split; [reflexivity|]. left. auto.
    + intros [= <-]. reflexivity.
  - intros H. apply bind_Ok_inv in H as (t & Ht & H).
    destruct (Py.gtb (Row.roas row) _) eqn:Hg.
    + apply bind_Ok_inv in H as (n & Hn & H). injection H as <-.
      cbn. split; [reflexivity|]. exists t, n. auto.
    + destruct (0 <? Row.roas row)%float eqn:H0; cbn [andb] in H;
        [destruct (Row.roas row <? t * 0.8)%float eqn:H8|].
      * apply bind_Ok_inv in H as (n & Hn & H). injection H as <-.
        cbn. exists n. split; [reflexivity|]. right. split; [reflexivity|].
        exists t. auto.
      * injection H as <-. reflexivity.
      * injection H as <-. reflexivity.
Qed.

(** Rule 3 either restores the spend and the status [unchanged] or leaves
    the variables alone, and then the change is not below 5. *)
Lemma rule_min_change_cases cb v :
  (small_change (new_budget v) cb = true
   /\ rule_min_change cb v
      = mkLocals (Py.Float cb)
          (match status v with
           | unchanged => reason v
           | _ => reason v +:+ suppressed_note
           end) unchanged)
  \/ (small_change (new_budget v) cb = false /\ rule_min_change cb v = v).
Proof.
  unfold rule_min_change. destruct (small_change _ _); [left|right]; split; trivial.
  destruct (status v); reflexivity.
Qed.

Lemma is_nan_to_numeric_fillna c : is_nan (to_numeric_fillna c) = false.
Proof.
  destruct c as [x|]; cbn; [|reflexivity].
  destruct (is_nan x) eqn:E; [reflexivity|exact E].
Qed.

(** The integer of rule 4 is below [2^1024] in absolute value. *)
Lemma round_max_1_bound x n :
  Py.round (Py.max_1 x) = Py.Ok n -> Z.abs n < 2 ^ 1024.
Proof.
  unfold Py.max_1. destruct (Py.gtb 1 x); cbn [Py.round].
  - intros [= <-]. reflexivity.
  - apply round_float_bound.
Qed.

Lemma round_after_rules_bound now target_roas avg row v n :
  apply_rules now target_roas avg row = Py.Ok v ->
  Py.round (new_budget (rule_min_change (Row.cost row) v)) = Py.Ok n ->
  Z.abs n < 2 ^ 1024.
Proof.
  intros Hv. apply apply_rules_inv in Hv. cbn zeta in Hv.
  destruct (rule_min_change_cases (Row.cost row) v) as [[_ ->]|[_ ->]];
    cbn [new_budget].
  - apply round_float_bound.
  - destruct (status v).
    + rewrite Hv. apply round_float_bound.
    + destruct Hv as (_ & t & k & _ & _ & Hk & ->). cbn [Py.round].
      intros [= <-]. exact (round_float_bound _ _ Hk).
    + destruct Hv as (k & -> & [(_ & _ & Hk)|(_ & t & _ & _ & _ & _ & Hk)]);
        cbn [Py.round]; intros [= <-]; exact (round_max_1_bound _ _ Hk).
Qed.

(** ** The claims *)

(** *** C1: scenario C *)

(** What is claimed fails on the last point: for spend 600 with ROAS 0.5 and
    target 150 the budget becomes 420 with status [decreased], but 420 is not
    below [max(600 * 0.2, 1) = 120], so the reason does not end with the
    low-budget advisory. *)
Lemma scenario_C_advisory_missing :
  exists d,
    analyze_campaigns 0 (VNum 1000) (VNum 150) (VCampaigns [established "C" 600 300])
    = Py.Ok (Results [d])
    /\ Row.roas (prepare (established "C" 600 300)) = 0.5%float
    /\ Decision.new_budget d = 420%float
    /\ Decision.status d = decreased
    /\ below_floor (Py.Int 420) 600 = false
    /\ ends_with low_budget_warning (Decision.reason d) = false.
Proof. eexists. repeat split; vm_compute; reflexivity. Qed.

(** C1, amended: an established campaign with [current_budget = 600],
    [target_roas = 150] and [roas = 0.5] (a purchase value of 300) gets
    [new_budget = 420] with status [decreased]; since 420 is not below
    [max(600 * 0.2, 1) = 120], no low-budget advisory is appended, and the
    reason is the text of the 30% cut alone. *)
Theorem scenario_C_no_advisory now total_budget (c : Campaign.t) :
  Campaign.cost c = Num 600 ->
  Campaign.purchase_value c = Num 300 ->
  is_new now (Campaign.create_time c) = false ->
  Row.roas (prepare c) = 0.5%float
  /\ analyze_campaigns now total_budget (VNum 150) (VCampaigns [c])
     = Py.Ok (Results
         [Decision.mk (Campaign.campaign_id c) 600 420 (-180) (Py.Float (-30))
            decreased "ROAS表现不佳(0.50)，低于目标(1.50)。削减预算30%。"
            "ROAS: 0.50"])
  /\ Py.max_1 (600 * 0.2) = Py.Float 120
  /\ Py.Z_ltb_num 420 (Py.Float 120) = false
  /\ ends_with low_budget_warning
       "ROAS表现不佳(0.50)，低于目标(1.50)。削减预算30%。" = false.
Proof.
  intros Hc Hp Hnew.
  assert (Hr : Row.roas (prepare c) = 0.5%float)
    by (unfold prepare; cbn; rewrite Hc, Hp; vm_compute; reflexivity).
  assert (Hb : Row.cost (prepare c) = 600%float)
    by (unfold prepare; cbn; rewrite Hc; vm_compute; reflexivity).
  split; [exact Hr|]. split; [|repeat split; vm_compute; reflexivity].
  unfold analyze_campaigns. cbn [truthy length Nat.eqb negb map Py.mapM Py.bind].
  unfold decide_row. rewrite apply_rules_established by exact Hnew.
  unfold assemble. rewrite Hr, Hb. vm_compute. reflexivity.
Qed.

Lemma scenario_C_no_advisory_witness :
  is_new 0 (Campaign.create_time (established "C" 600 300)) = false
  /\ analyze_campaigns 0 (VNum 1000) (VNum 150)
       (VCampaigns [established "C" 600 300])
     = Py.Ok (Results
         [Decision.mk "C" 600 420 (-180) (Py.Float (-30))
            decreased "ROAS表现不佳(0.50)，低于目标(1.50)。削减预算30%。"
            "ROAS: 0.50"]).
Proof.
  split; [reflexivity|].
  apply (scenario_C_no_advisory 0 (VNum 1000) (established "C" 600 300));
    reflexivity.
Defined.

(** *** C2: minimum-change suppression *)

(** What is claimed fails on the final budget: a spend of 10.5 is left
    unchanged by the rules, the change of 0 is below 5, and the emitted
    [new_budget] is 10, the rounded spend, not the [old_budget] 10.5. *)
Lemma min_change_rounds_old_budget :
  exists v d,
    apply_rules 0 (VNum 150) nan (prepare (established "F" 10.5 0)) = Py.Ok v
    /\ small_change (new_budget v) 10.5 = true
    /\ analyze_campaigns 0 (VNum 1000) (VNum 150) (VCampaigns [established "F" 10.5 0])
       = Py.Ok (Results [d])
    /\ Decision.status d = unchanged
    /\ Decision.old_budget d = 10.5%float
    /\ Decision.new_budget d = 10%float
    /\ (Decision.new_budget d =? Decision.old_budget d)%float = false.
Proof. do 2 eexists. repeat split; vm_compute; reflexivity. Qed.

(** C2, amended: for every row, when the budget [new_budget] computed by
    rules 1 and 2 satisfies [|new_budget - old_budget| < 5], the evaluation of
    the row returns a decision with status [unchanged] whose [new_budget] is
    [old_budget] rounded to the nearest integer (ties to even), and whose
    reason carries the suppression note exactly when the rules had decided a
    decrease or an increase. *)
Theorem min_change_suppression now target_roas avg row v :
  apply_rules now target_roas avg row = Py.Ok v ->
  small_change (new_budget v) (Row.cost row) = true ->
  exists n d,
    Py.round_float (Row.cost row) = Py.Ok n
    /\ decide_row now target_roas avg row = Py.Ok d
    /\ Decision.status d = unchanged
    /\ Decision.old_budget d = Row.cost row
    /\ Decision.new_budget d = Py.float_of_Z n
    /\ Decision.reason d
       = match status v with
         | unchanged => reason v
         | _ => reason v +:+ suppressed_note
         end.
Proof.
  intros Hv Hs. destruct (small_change_finite _ _ Hs) as [n Hn].
  exists n. eexists. split; [exact Hn|].
  unfold decide_row. rewrite Hv. cbn [Py.bind].
  unfold rule_min_change. rewrite Hs.
  unfold rule_integer. cbn [new_budget Py.round Py.bind reason status]. rewrite Hn.
  cbn [Py.bind]. unfold rule_low_budget. cbn [status status_eqb].
  rewrite andb_false_r. split; [reflexivity|].
  cbn. repeat split. destruct (status v); reflexivity.
Qed.

Lemma min_change_suppression_witness :
  exists n d,
    Py.round_float 2 = Py.Ok n
    /\ decide_row 0 (VNum 150) nan (prepare (established "S" 2 10)) = Py.Ok d
    /\ Decision.status d = unchanged
    /\ Decision.old_budget d = 2%float
    /\ Decision.new_budget d = Py.float_of_Z n
    /\ Decision.reason d
       = "ROAS表现出色(5.00)，高于目标(1.50)。根据其消耗水平，预算上限可增加200.0%，增加预算至 6。"
           +:+ suppressed_note.
Proof.
  apply (min_change_suppression 0 (VNum 150) nan (prepare (established "S" 2 10))
           (mkLocals (Py.Int 6)
              "ROAS表现出色(5.00)，高于目标(1.50)。根据其消耗水平，预算上限可增加200.0%，增加预算至 6。"
              increased));
    vm_compute; reflexivity.
Defined.

(** *** C3: coercion of the numeric fields *)

(** What is claimed fails for negative values: a cost of -10 stays -10 in the
    row and in the decision, and a purchase value of -5 over a cost of 10
    gives the ROAS -0.5. *)
Lemma negative_cost_kept :
  Row.cost (prepare (established "N" (-10) 0)) = (-10)%float
  /\ (Row.cost (prepare (established "N" (-10) 0)) =? 0)%float = false
  /\ Row.roas (prepare (established "R" 10 (-5))) = (-0.5)%float
  /\ exists d,
      analyze_campaigns 0 (VNum 1000) (VNum 150)
        (VCampaigns [established "N" (-10) 0])
      = Py.Ok (Results [d])
      /\ Decision.old_budget d = (-10)%float.
Proof. repeat split. eexists. split; vm_compute; reflexivity. Qed.

(** C3, amended: for every campaign record, a non-numeric value in one of
    [cost], [impression], [click], [action], [purchase], [purchase_value] is
    coerced to 0 before [roas], [cpc] and [cpa] are computed, while a negative
    number is kept as it is; a cost that is non-numeric or negative gives
    [roas = 0] and such a click count gives [cpc = inf]; coercion rejects no
    record: a batch that evaluates returns one decision per record. *)
Theorem coercion_of_numeric_fields (c : Campaign.t) (x : float) :
  (x <? 0)%float = true ->
  to_numeric_fillna NotNum = 0%float
  /\ to_numeric_fillna (Num x) = x
  /\ numeric_columns (prepare c) = map to_numeric_fillna (numeric_fields c)
  /\ Row.roas (prepare c)
     = compute_roas (to_numeric_fillna (Campaign.purchase_value c))
         (to_numeric_fillna (Campaign.cost c))
  /\ Row.cpc (prepare c)
     = compute_cpc (to_numeric_fillna (Campaign.cost c))
         (to_numeric_fillna (Campaign.click c))
  /\ Row.cpa (prepare c)
     = compute_cpa (to_numeric_fillna (Campaign.cost c))
         (to_numeric_fillna (Campaign.action c))
  /\ (Campaign.cost c = NotNum \/ Campaign.cost c = Num x ->
      Row.roas (prepare c) = 0%float)
  /\ (Campaign.click c = NotNum \/ Campaign.click c = Num x ->
      Row.cpc (prepare c) = infinity)
  /\ (forall now total_budget target_roas l results,
        In c l ->
        analyze_campaigns now total_budget target_roas (VCampaigns l)
        = Py.Ok (Results results) ->
        length results = length l).
Proof.
  intros Hx.
  assert (Hkeep : to_numeric_fillna (Num x) = x)
    by (cbn; now rewrite (ltb_not_nan _ _ Hx)).
  assert (Hneg : Py.gtb x 0 = false) by exact (ltb_asym _ _ Hx).
  repeat split; try reflexivity; try exact Hkeep.
  - intros [H|H]; cbn [prepare Row.roas]; unfold compute_roas; rewrite H.
    + reflexivity.
    + now rewrite Hkeep, Hneg.
  - intros [H|H]; cbn [prepare Row.cpc]; unfold compute_cpc; rewrite H.
    + reflexivity.
    + now rewrite Hkeep, Hneg.
  - intros now tb tr l results _ H.
    apply analyze_campaigns_rows in H. symmetry. exact (Forall2_length _ _ _ H).
Qed.

Lemma coercion_of_numeric_fields_witness :
  (-10 <? 0)%float = true
  /\ to_numeric_fillna (Num (-10)) = (-10)%float
  /\ Row.roas (prepare (established "N" (-10) 0)) = 0%float.
Proof.
  pose proof (coercion_of_numeric_fields (established "N" (-10) 0) (-10) eq_refl)
    as (_ & Hk & _ & _ & _ & _ & Hr & _).
  split; [reflexivity|]. split; [exact Hk|]. apply Hr. right. reflexivity.
Defined.

(** *** C4: the emitted budget is a whole number *)

(** What is claimed fails on the sign: a cost of -10 is emitted as the
    new budget -10. *)
Lemma negative_new_budget :
  exists d,
    analyze_campaigns 0 (VNum 1000) (VNum 150)
      (VCampaigns [established "N" (-10) 0])
    = Py.Ok (Results [d])
    /\ Decision.new_budget d = Py.float_of_Z (-10)
    /\ (Decision.new_budget d <? 0)%float = true.
Proof. eexists. repeat split; vm_compute; reflexivity. Qed.

(** C4, amended: in every successful evaluation the emitted [new_budget] of
    each record is an integer converted to a float: the integer [n] that
    [round] returns in rule 4, which is below [2^1024] in absolute value (so
    the conversion does not overflow), and [n] is not negative when the
    coerced cost of the record is not negative. *)
Theorem new_budget_whole_number now total_budget target_roas l results :
  analyze_campaigns now total_budget target_roas (VCampaigns l)
  = Py.Ok (Results results) ->
  Forall2 (fun c d =>
             exists v n,
               apply_rules now target_roas (avg_cpc_valid (map prepare l))
                 (prepare c) = Py.Ok v
               /\ Py.round (new_budget (rule_min_change (current_budget_of c) v))
                  = Py.Ok n
               /\ Decision.new_budget d = Py.float_of_Z n
               /\ Z.abs n < 2 ^ 1024
               /\ ((0 <=? current_budget_of c)%float = true -> 0 <= n))
    l results.
Proof.
  intros H. apply analyze_campaigns_rows in H.
  eapply Forall2_impl; [exact H|]. clear H. cbn beta. intros c d Hd.
  apply decide_row_new_budget in Hd as (v & n & Hv & Hn & Hnb & _ & _).
  exists v, n. split; [exact Hv|]. split; [exact Hn|]. split; [exact Hnb|].
  split; [exact (round_after_rules_bound _ _ _ _ _ _ Hv Hn)|].
  intros Hc. apply current_budget_nonneg in Hc.
  eapply round_nonneg; [|exact Hn].
  apply rule_min_change_nonneg; [exact Hc|].
  eapply apply_rules_nonneg; [exact Hc|exact Hv].
Qed.

Lemma new_budget_whole_number_witness :
  Forall2 (fun c d =>
             exists v n,
               apply_rules 0 (VNum 150)
                 (avg_cpc_valid (map prepare [established "B" 40 80]))
                 (prepare c) = Py.Ok v
               /\ Py.round (new_budget (rule_min_change (current_budget_of c) v))
                  = Py.Ok n
               /\ Decision.new_budget d = Py.float_of_Z n
               /\ Z.abs n < 2 ^ 1024
               /\ ((0 <=? current_budget_of c)%float = true -> 0 <= n))
    [established "B" 40 80]
    [Decision.mk "B" 40 120 80 (Py.Float 200) increased
       "ROAS表现出色(2.00)，高于目标(1.50)。根据其消耗水平，预算上限可增加200.0%，增加预算至 120。"
       "ROAS: 2.00"].
Proof.
  apply (new_budget_whole_number 0 (VNum 1000) (VNum 150)).
  vm_compute. reflexivity.
Defined.

(** *** C5: a new campaign without clicks *)

Lemma no_click_cpc c : no_click c -> Row.cpc (prepare c) = infinity.
Proof. unfold no_click. cbn [prepare Row.cpc]. unfold compute_cpc. now intros ->. Qed.

(** With no click in the whole batch there is no valid CPC to average. *)
Lemma avg_cpc_valid_no_clicks l :
  Forall no_click l -> avg_cpc_valid (map prepare l) = nan.
Proof.
  intros H. unfold avg_cpc_valid.
  assert (E : filter (fun x => negb (x =? infinity)%float)
                (map Row.cpc (map prepare l)) = []).
  { induction H as [|c l Hc _ IH]; [reflexivity|].
    cbn [map filter]. rewrite (no_click_cpc c Hc). exact IH. }
  rewrite E. reflexivity.
Qed.

(** What is claimed fails when no record of the batch has a click: the
    average is NaN, [inf > NaN * 1.3] is false, and the new campaign keeps
    its budget with status [unchanged]. *)
Lemma lone_new_campaign_unchanged :
  is_new sample_now (Campaign.create_time (fresh_without_clicks sample_now)) = true
  /\ Row.cpc (prepare (fresh_without_clicks sample_now)) = infinity
  /\ analyze_campaigns sample_now (VNum 1000) (VNum 150)
       (VCampaigns [fresh_without_clicks sample_now])
     = Py.Ok (Results
         [Decision.mk "N" 100 100 0 (Py.Float 0) unchanged
            "新广告(24h内): 表现正常，维持预算观察。" "ROAS: 0.00"]).
Proof. repeat split. Qed.

(** C5, amended: for every campaign classified NEW whose click count is 0,
    [cpc] is infinite, and rule 1 decides the decrease
    ([new_budget = round(max(current_budget * 0.5, 1))], status [decreased])
    exactly when the threshold [avg_cpc_valid * 1.3] is a number below
    [+inf]; when no record of the batch has a click the average is NaN and
    the rule leaves the budget as it is, with status [unchanged]. *)
Theorem new_campaign_without_clicks now target_roas avg (c : Campaign.t) :
  is_new now (Campaign.create_time c) = true ->
  (to_numeric_fillna (Campaign.click c) =? 0)%float = true ->
  Row.cpc (prepare c) = infinity
  /\ apply_rules now target_roas avg (prepare c)
     = (if (avg * 1.3 <? infinity)%float
        then
          let* n := Py.round (Py.max_1 (current_budget_of c * 0.5)%float) in
          Py.Ok (mkLocals (Py.Int n)
                   ("新广告(24h内): CPC (" +:+ Py.fmt_2f infinity
                      +:+ ") 高于平均值 (" +:+ Py.fmt_2f avg
                      +:+ ") 的30%，降低预算50%。")
                   decreased)
        else
          Py.Ok (mkLocals (Py.Float (current_budget_of c))
                   "新广告(24h内): 表现正常，维持预算观察。" unchanged))
  /\ (forall l,
        Forall no_click l ->
        apply_rules now target_roas (avg_cpc_valid (map prepare l)) (prepare c)
        = Py.Ok (mkLocals (Py.Float (current_budget_of c))
                   "新广告(24h内): 表现正常，维持预算观察。" unchanged)).
Proof.
  intros Hnew Hclick.
  assert (Hcpc : Row.cpc (prepare c) = infinity)
    by (apply no_click_cpc, eqb_zero_not_pos, Hclick).
  assert (Hrule : forall a,
             apply_rules now target_roas a (prepare c)
             = rule_new a infinity (current_budget_of c)
                 (mkLocals (Py.Float (current_budget_of c)) default_reason unchanged)).
  { intros a. rewrite apply_rules_new by exact Hnew. now rewrite Hcpc. }
  split; [exact Hcpc|]. split.
  - rewrite Hrule. unfold rule_new, Py.gtb.
    destruct (avg * 1.3 <? infinity)%float; reflexivity.
  - intros l Hl. rewrite Hrule, (avg_cpc_valid_no_clicks l Hl). reflexivity.
Qed.

Lemma new_campaign_without_clicks_witness :
  Row.cpc (prepare (fresh_without_clicks sample_now)) = infinity
  /\ apply_rules sample_now (VNum 150) 3 (prepare (fresh_without_clicks sample_now))
     = Py.Ok (mkLocals (Py.Int 50)
                "新广告(24h内): CPC (inf) 高于平均值 (3.00) 的30%，降低预算50%。"
                decreased).
Proof.
  pose proof (new_campaign_without_clicks sample_now (VNum 150) 3
                (fresh_without_clicks sample_now) eq_refl eq_refl) as (H1 & H2 & _).
  split; [exact H1|]. rewrite H2. vm_compute. reflexivity.
Defined.

(** *** C6: a ROAS of exactly 0 *)

(** What is claimed fails in two ways.  The emitted budget of an unchanged
    campaign is the rounded spend: 10.5 gives 10.  And with a negative
    target the zero ROAS is above the threshold [-1.5 * 1.2], so the budget
    of 40 is raised to 120. *)
Lemma zero_roas_counterexamples :
  Row.roas (prepare (established "F" 10.5 0)) = 0%float
  /\ analyze_campaigns 0 (VNum 1000) (VNum 150) (VCampaigns [established "F" 10.5 0])
     = Py.Ok (Results
         [Decision.mk "F" 10.5 10 (-0.5) (Py.Float (-4.76)) unchanged
            default_reason "ROAS: 0.00"])
  /\ (10 =? 10.5)%float = false
  /\ Row.roas (prepare (established "A" 40 0)) = 0%float
  /\ analyze_campaigns 0 (VNum 1000) (VNum (-150)) (VCampaigns [established "A" 40 0])
     = Py.Ok (Results
         [Decision.mk "A" 40 120 80 (Py.Float 200) increased
            "ROAS表现出色(0.00)，高于目标(-1.50)。根据其消耗水平，预算上限可增加200.0%，增加预算至 120。"
            "ROAS: 0.00"]).
Proof. repeat split. Qed.

(** C6, amended: for every ESTABLISHED campaign with [roas] exactly 0 the
    underperformance cut does not apply (the rule needs [0 < roas]), so the
    status is never [decreased]; when [target_roas] is not negative the
    rules leave the budget at [current_budget] with status [unchanged], and
    the emitted decision is [unchanged] with [new_budget] equal to
    [current_budget] rounded to the nearest integer; e.g.
    [current_budget = 40], [roas = 0], [target_roas = 150] yields
    [unchanged] at 40. *)
Theorem zero_roas_not_cut now (target : float) avg row :
  is_new now (Row.create_time_dt row) = false ->
  (Row.roas row =? 0)%float = true ->
  (forall v, apply_rules now (VNum target) avg row = Py.Ok v -> status v <> decreased)
  /\ ((0 <=? target)%float = true ->
      apply_rules now (VNum target) avg row
      = Py.Ok (mkLocals (Py.Float (Row.cost row)) default_reason unchanged)
      /\ forall n,
          Py.round_float (Row.cost row) = Py.Ok n ->
          decide_row now (VNum target) avg row
          = Py.Ok (Decision.mk (Row.campaign_id row) (Row.cost row)
                     (Py.float_of_Z n)
                     (Py.sub_float (Py.Int n) (Row.cost row))
                     (if Py.gtb (Row.cost row) 0
                      then Py.Float (Py.round_2
                                       (Py.sub_float (Py.Int n) (Row.cost row)
                                          / Row.cost row * 100)%float)
                      else Py.Int 0)
                     unchanged default_reason
                     ("ROAS: " +:+ Py.fmt_2f (Row.roas row))))
  /\ analyze_campaigns 0 (VNum 1000) (VNum 150) (VCampaigns [established "A" 40 0])
     = Py.Ok (Results
         [Decision.mk "A" 40 40 0 (Py.Float 0) unchanged default_reason
            "ROAS: 0.00"]).
Proof.
  intros Hnew Hz. pose proof (eqb_zero_not_pos _ Hz) as Hpos.
  split; [|split; [|reflexivity]].
  - intros v. rewrite apply_rules_established by exact Hnew.
    unfold rule_roas. cbn [div_100 Py.bind]. rewrite Hpos. cbn [andb].
    destruct (Py.gtb _ _).
    + intros H. apply bind_Ok_inv in H as (n & _ & H). now injection H as <-.
    + now intros [= <-].
  - intros Ht.
    assert (Hrules : apply_rules now (VNum target) avg row
                     = Py.Ok (mkLocals (Py.Float (Row.cost row)) default_reason
                                unchanged)).
    { rewrite apply_rules_established by exact Hnew.
      unfold rule_roas, Py.gtb. cbn [div_100 Py.bind].
      rewrite (nonneg_not_below_zero _ _
                 (threshold_nonneg target 1.2 Ht eq_refl) Hz).
      rewrite Hpos. reflexivity. }
    split; [exact Hrules|]. intros n Hn.
    unfold decide_row. rewrite Hrules. cbn [Py.bind].
    assert (Hsame : rule_min_change (Row.cost row)
                      (mkLocals (Py.Float (Row.cost row)) default_reason unchanged)
                    = mkLocals (Py.Float (Row.cost row)) default_reason unchanged).
    { unfold rule_min_change. destruct (small_change _ _); reflexivity. }
    rewrite Hsame. unfold rule_integer. cbn [new_budget Py.round Py.bind].
    rewrite Hn. cbn [Py.bind reason status].
    unfold rule_low_budget. cbn [status status_eqb]. rewrite andb_false_r.
    reflexivity.
Qed.

Lemma zero_roas_not_cut_witness :
  decide_row 0 (VNum 150) nan (prepare (established "A" 40 0))
  = Py.Ok (Decision.mk "A" 40 40 0 (Py.Float 0) unchanged default_reason
             "ROAS: 0.00").
Proof.
  pose proof (zero_roas_not_cut 0 150 nan (prepare (established "A" 40 0))
                eq_refl eq_refl) as (_ & H & _).
  destruct (H eq_refl) as [_ Hd]. rewrite (Hd 40 eq_refl). reflexivity.
Defined.

(** *** C7: the increase of an outperforming campaign *)

(** What is claimed fails for the decision that is emitted when the
    increase is below 5: a spend of 2 with ROAS 5 under the target 150 is
    above the threshold and rule 2 sets the budget 6 with status
    [increased], but the change of 4 is suppressed and the decision is
    [unchanged] at 2. *)
Lemma small_increase_suppressed :
  Py.gtb (Row.roas (prepare (established "S" 2 10))) (150 / 100.0 * 1.2)%float = true
  /\ Py.round_float (2 + 2 * get_adjustment_percentage_rules 2)%float = Py.Ok 6
  /\ analyze_campaigns 0 (VNum 1000) (VNum 150) (VCampaigns [established "S" 2 10])
     = Py.Ok (Results
         [Decision.mk "S" 2 2 0 (Py.Float 0) unchanged
            ("ROAS表现出色(5.00)，高于目标(1.50)。根据其消耗水平，预算上限可增加200.0%，增加预算至 6。"
               +:+ suppressed_note)
            "ROAS: 5.00"]).
Proof. repeat split. Qed.

(** C7, amended: for every ESTABLISHED campaign with
    [roas > (target_roas / 100) * 1.2], rule 2 sets
    [new_budget = round(current_budget + current_budget * factor)] with
    status [increased], where [factor] is 2.0 for [current_budget <= 50],
    1.0 on (50, 100], 0.5 on (100, 500] and 0.3 above 500; the emitted
    decision has this budget and status when that change is not below 5,
    and otherwise it is [unchanged] at the rounded [current_budget]; in
    particular [current_budget = 40], [target_roas = 150], [roas = 2.0]
    yields [new_budget = 120]. *)
Theorem outperforming_increase now (target : float) avg row :
  is_new now (Row.create_time_dt row) = false ->
  Py.gtb (Row.roas row) (target / 100.0 * 1.2)%float = true ->
  let current_budget := Row.cost row in
  let factor := get_adjustment_percentage_rules current_budget in
  apply_rules now (VNum target) avg row
  = (let* n := Py.round_float (current_budget + current_budget * factor)%float in
     Py.Ok (mkLocals (Py.Int n)
              ("ROAS表现出色(" +:+ Py.fmt_2f (Row.roas row) +:+ ")，高于目标("
                 +:+ Py.fmt_2f (target / 100.0)%float
                 +:+ ")。根据其消耗水平，预算上限可增加"
                 +:+ Py.str_whole (factor * 100)%float
                 +:+ "%，增加预算至 " +:+ Py.str_int n +:+ "。")
              increased))
  /\ ((current_budget <=? 50)%float = true -> factor = 2.0%float)
  /\ ((50 <? current_budget)%float = true -> (current_budget <=? 100)%float = true ->
      factor = 1.0%float)
  /\ ((100 <? current_budget)%float = true -> (current_budget <=? 500)%float = true ->
      factor = 0.5%float)
  /\ ((500 <? current_budget)%float = true -> factor = 0.3%float)
  /\ (forall n,
        Py.round_float (current_budget + current_budget * factor)%float = Py.Ok n ->
        small_change (Py.Int n) current_budget = false ->
        exists d,
          decide_row now (VNum target) avg row = Py.Ok d
          /\ Decision.status d = increased
          /\ Decision.new_budget d = Py.float_of_Z n)
  /\ (forall n,
        Py.round_float (current_budget + current_budget * factor)%float = Py.Ok n ->
        small_change (Py.Int n) current_budget = true ->
        exists d m,
          decide_row now (VNum target) avg row = Py.Ok d
          /\ Decision.status d = unchanged
          /\ Py.round_float current_budget = Py.Ok m
          /\ Decision.new_budget d = Py.float_of_Z m)
  /\ analyze_campaigns 0 (VNum 1000) (VNum 150) (VCampaigns [established "B" 40 80])
     = Py.Ok (Results
         [Decision.mk "B" 40 120 80 (Py.Float 200) increased
            "ROAS表现出色(2.00)，高于目标(1.50)。根据其消耗水平，预算上限可增加200.0%，增加预算至 120。"
            "ROAS: 2.00"]).
Proof.
  intros Hnew Hgt current_budget factor.
  assert (Hrules : apply_rules now (VNum target) avg row
                   = (let* n := Py.round_float
                                  (current_budget + current_budget * factor)%float in
                      Py.Ok (mkLocals (Py.Int n)
                               ("ROAS表现出色(" +:+ Py.fmt_2f (Row.roas row)
                                  +:+ ")，高于目标("
                                  +:+ Py.fmt_2f (target / 100.0)%float
                                  +:+ ")。根据其消耗水平，预算上限可增加"
                                  +:+ Py.str_whole (factor * 100)%float
                                  +:+ "%，增加预算至 " +:+ Py.str_int n +:+ "。")
                               increased))).
  { rewrite apply_rules_established by exact Hnew.
    unfold rule_roas. cbn [div_100 Py.bind]. rewrite Hgt. reflexivity. }
  split; [exact Hrules|].
  destruct (factor_tiers current_budget) as (T1 & T2 & T3 & T4).
  repeat (split; [assumption|]).
  split; [|split; [|reflexivity]].
  - intros n Hn Hbig. eexists. split.
    + unfold decide_row. rewrite Hrules, Hn.
      cbn [Py.bind]. unfold rule_min_change. cbn [new_budget].
      fold current_budget. rewrite Hbig.
      unfold rule_integer. cbn [new_budget Py.round Py.bind reason status].
      unfold rule_low_budget. cbn [status status_eqb]. rewrite andb_false_r.
      reflexivity.
    + split; reflexivity.
  - intros n Hn Hsmall. destruct (small_change_finite _ _ Hsmall) as [m Hm].
    eexists. exists m. split.
    + unfold decide_row. rewrite Hrules, Hn.
      cbn [Py.bind]. unfold rule_min_change. cbn [new_budget].
      fold current_budget. rewrite Hsmall.
      unfold rule_integer. cbn [new_budget Py.round Py.bind reason status].
      rewrite Hm. cbn [Py.bind].
      unfold rule_low_budget. cbn [status status_eqb]. rewrite andb_false_r.
      reflexivity.
    + repeat split. exact Hm.
Qed.

Lemma outperforming_increase_witness :
  Py.gtb (Row.roas (prepare (established "B" 40 80))) (150 / 100.0 * 1.2)%float = true
  /\ get_adjustment_percentage_rules 40 = 2.0%float
  /\ apply_rules 0 (VNum 150) nan (prepare (established "B" 40 80))
     = Py.Ok (mkLocals (Py.Int 120)
                "ROAS表现出色(2.00)，高于目标(1.50)。根据其消耗水平，预算上限可增加200.0%，增加预算至 120。"
                increased).
Proof.
  pose proof (outperforming_increase 0 150 nan (prepare (established "B" 40 80))
                eq_refl eq_refl) as (H & T & _).
  split; [reflexivity|]. split; [exact (T eq_refl)|]. rewrite H. reflexivity.
Defined.

(** *** C8: input validation *)

(** What is claimed fails for the empty JSON object: its three parameters
    are missing, and the request is rejected as invalid JSON, not for its
    missing parameters. *)
Lemma empty_object_invalid_json :
  truthy (get ∅ "total_budget") = false
  /\ analyze_budget_endpoint sample_now (Some ∅)
     = mkResponse (JsonError "Invalid JSON") 400
  /\ analyze_budget_endpoint sample_now (Some ∅)
     <> mkResponse (JsonError missing_parameters) 400.
Proof. repeat split. discriminate. Qed.

(** C8, amended: an empty [campaign_data] batch makes the core return the
    error object [{"error": "Campaign data is empty."}] and raises nothing;
    a request whose body is a non-empty object in which [total_budget],
    [target_roas] or [campaign_data] is missing or falsy is rejected with the
    'missing required parameters' error and status 400, whatever the core
    would do (the empty object is rejected before that, as invalid JSON). *)
Theorem input_validation now total_budget target_roas (data : gmap string value) :
  data <> ∅ ->
  truthy (get data "total_budget") = false
  \/ truthy (get data "target_roas") = false
  \/ truthy (get data "campaign_data") = false ->
  analyze_campaigns now total_budget target_roas (VCampaigns [])
  = Py.Ok (ErrorDict "Campaign data is empty.")
  /\ analyze_budget_endpoint now (Some data)
     = mkResponse (JsonError missing_parameters) 400.
Proof.
  intros Hne Hfalsy. split; [reflexivity|].
  unfold analyze_budget_endpoint.
  destruct (Nat.eqb (size data) 0) eqn:Hsize.
  - apply Nat.eqb_eq, map_size_empty_iff in Hsize. contradiction.
  - cbn [forallb]. destruct Hfalsy as [-> | [-> | ->]];
      rewrite ?andb_false_r; reflexivity.
Qed.

Lemma input_validation_witness :
  analyze_budget_endpoint sample_now
    (Some (<["total_budget" := VNum 0]> (sample_body (VNum 1000))))
  = mkResponse (JsonError missing_parameters) 400.
Proof.
  apply (input_validation sample_now VNone VNone
           (<["total_budget" := VNum 0]> (sample_body (VNum 1000)))).
  - apply insert_non_empty.
  - left. reflexivity.
Defined.

(** *** C9: total_budget does not interfere *)

(** C9: two evaluations with the same [target_roas] and [campaign_data] and
    different truthy [total_budget] values give the same result, in the core
    and through the endpoint; [total_budget] is no cap on the sum of the
    adjusted budgets: with a total of 100 a campaign is still raised from 40
    to 120. *)
Theorem total_budget_noninterference now (tb1 tb2 target_roas campaign_data : value)
  (data : gmap string value) :
  truthy tb1 = true ->
  truthy tb2 = true ->
  analyze_campaigns now tb1 target_roas campaign_data
  = analyze_campaigns now tb2 target_roas campaign_data
  /\ analyze_budget_endpoint now (Some (<["total_budget" := tb1]> data))
     = analyze_budget_endpoint now (Some (<["total_budget" := tb2]> data))
  /\ (analyze_campaigns now (VNum 100) (VNum 150) (VCampaigns [established "B" 40 80])
      = Py.Ok (Results
          [Decision.mk "B" 40 120 80 (Py.Float 200) increased
             "ROAS表现出色(2.00)，高于目标(1.50)。根据其消耗水平，预算上限可增加200.0%，增加预算至 120。"
             "ROAS: 2.00"])
      /\ (100 <? 120)%float = true).
Proof.
  intros H1 H2. split; [reflexivity|]. split; [|split; reflexivity].
  unfold analyze_budget_endpoint.
  assert (Hsize : forall tb, Nat.eqb (size (<["total_budget" := tb]> data)) 0 = false).
  { intros tb. apply Nat.eqb_neq. rewrite map_size_empty_iff.
    apply insert_non_empty. }
  assert (Hget : forall tb key,
             get (<["total_budget" := tb]> data) key
             = if String.eqb key "total_budget" then tb else get data key).
  { intros tb key. unfold get. destruct (String.eqb_spec key "total_budget") as [->|Hk].
    - now rewrite lookup_insert_eq.
    - now rewrite lookup_insert_ne by congruence. }
  rewrite !Hsize, !Hget. cbn [String.eqb Ascii.eqb Bool.eqb forallb].
  rewrite H1, H2. reflexivity.
Qed.

Lemma total_budget_noninterference_witness :
  analyze_budget_endpoint sample_now (Some (sample_body (VNum 1000)))
  = analyze_budget_endpoint sample_now (Some (sample_body (VNum 5))).
Proof.
  apply (total_budget_noninterference sample_now (VNum 1000) (VNum 5) (VNum 150)
           (VCampaigns [established "B" 40 80])
           (<["target_roas" := VNum 150]>
              (<["campaign_data" := VCampaigns [established "B" 40 80]]> ∅)));
    reflexivity.
Defined.

(** *** C10: the frame of the low-budget flag *)

(** C10: for every campaign whose status is [decreased] and whose
    [new_budget] is below [max(current_budget * 0.2, 1)], rule 5 appends the
    pause recommendation to the reason and changes nothing else: [status]
    and [new_budget] are as before, and the emitted decision differs from the
    one without the rule in its reason only. *)
Theorem low_budget_flag_frame (row : Row.t) (v : locals) :
  status v = decreased ->
  below_floor (new_budget v) (Row.cost row) = true ->
  let v' := rule_low_budget (Row.cost row) v in
  let d := assemble row v in
  reason v' = reason v +:+ low_budget_warning
  /\ new_budget v' = new_budget v
  /\ status v' = status v
  /\ assemble row v'
     = Decision.mk (Decision.campaign_id d) (Decision.old_budget d)
         (Decision.new_budget d) (Decision.adjustment_amount d)
         (Decision.adjustment_percent d) (Decision.status d)
         (Decision.reason d +:+ low_budget_warning) (Decision.key_metric_value d).
Proof.
  destruct v as [nb r st]. cbn [status new_budget]. intros -> Hb.
  unfold rule_low_budget. cbn [status new_budget reason]. rewrite Hb.
  cbn [status_eqb andb]. repeat split.
Qed.

Lemma low_budget_flag_frame_witness :
  below_floor (Py.Int 1) 10 = true
  /\ reason (rule_low_budget 10 (mkLocals (Py.Int 1) "cut" decreased))
     = "cut" +:+ low_budget_warning
  /\ new_budget (rule_low_budget 10 (mkLocals (Py.Int 1) "cut" decreased)) = Py.Int 1
  /\ status (rule_low_budget 10 (mkLocals (Py.Int 1) "cut" decreased)) = decreased.
Proof.
  split; [reflexivity|].
  destruct (low_budget_flag_frame (prepare (established "W" 10 0))
              (mkLocals (Py.Int 1) "cut" decreased) eq_refl eq_refl)
    as (Hr & Hn & Hs & _).
  exact (conj Hr (conj Hn Hs)).
Defined.

(** ** Further properties of the evaluation *)

(** *** X2: the status and the size of the change *)

(** X2: in every decision of a row, status [unchanged] means that the
    emitted budget is the spend rounded to an integer, and any other status
    means that the emitted change is not below 5:
    [abs(adjustment_amount) < 5] is false. *)
Theorem status_matches_change now target_roas avg row d :
  decide_row now target_roas avg row = Py.Ok d ->
  match Decision.status d with
  | unchanged =>
      exists n, Py.round_float (Row.cost row) = Py.Ok n
                /\ Decision.new_budget d = Py.float_of_Z n
  | _ => (abs (Decision.adjustment_amount d) <? 5)%float = false
  end.
Proof.
  intros Hd. apply decide_row_inv in Hd as (v & n & Hv & Hn & ->).
  apply apply_rules_inv in Hv. cbn zeta in Hv.
  destruct (rule_low_budget_frame (Row.cost row)
              (mkLocals (Py.Int n)
                 (reason (rule_min_change (Row.cost row) v))
                 (status (rule_min_change (Row.cost row) v)))) as [Hb Hs].
  cbn [new_budget status] in Hb, Hs. unfold assemble.
  cbn [Decision.status Decision.new_budget Decision.adjustment_amount].
  rewrite Hb, Hs.
  destruct (rule_min_change_cases (Row.cost row) v) as [[_ E]|[Hbig E]];
    rewrite E in *; cbn [status new_budget] in *.
  - exists n. split; [exact Hn|reflexivity].
  - destruct (status v).
    + rewrite Hv in Hn. exists n. split; [exact Hn|reflexivity].
    + destruct Hv as (_ & t & k & _ & _ & _ & Hk). rewrite Hk in Hn, Hbig.
      injection Hn as <-. exact Hbig.
    + destruct Hv as (k & Hk & _). rewrite Hk in Hn, Hbig.
      injection Hn as <-. exact Hbig.
Qed.

Lemma status_matches_change_witness :
  (abs 80 <? 5)%float = false.
Proof.
  exact (status_matches_change 0 (VNum 150) nan (prepare (established "B" 40 80))
           (Decision.mk "B" 40 120 80 (Py.Float 200) increased
              "ROAS表现出色(2.00)，高于目标(1.50)。根据其消耗水平，预算上限可增加200.0%，增加预算至 120。"
              "ROAS: 2.00") eq_refl).
Defined.

(** The two ways through rules 3 to 5. *)
Lemma decide_row_cases now target_roas avg row d :
  decide_row now target_roas avg row = Py.Ok d ->
  exists v n,
    apply_rules now target_roas avg row = Py.Ok v
    /\ Decision.new_budget d = Py.float_of_Z n
    /\ ((small_change (new_budget v) (Row.cost row) = true
         /\ Py.round_float (Row.cost row) = Py.Ok n
         /\ Decision.status d = unchanged
         /\ Decision.reason d
            = match status v with
              | unchanged => reason v
              | _ => reason v +:+ suppressed_note
              end)
        \/ (small_change (new_budget v) (Row.cost row) = false
            /\ Py.round (new_budget v) = Py.Ok n
            /\ Decision.status d = status v
            /\ (Decision.reason d = reason v
                \/ (Decision.reason d = reason v +:+ low_budget_warning
                    /\ status v = decreased)))).
Proof.
  intros Hd. apply decide_row_inv in Hd as (v & n & Hv & Hn & ->).
  exists v, n. split; [exact Hv|].
  destruct (rule_low_budget_frame (Row.cost row)
              (mkLocals (Py.Int n)
                 (reason (rule_min_change (Row.cost row) v))
                 (status (rule_min_change (Row.cost row) v)))) as [Hb Hs].
  cbn [new_budget status] in Hb, Hs. unfold assemble.
  cbn [Decision.status Decision.new_budget Decision.reason].
  rewrite Hb, Hs. split; [reflexivity|].
  destruct (rule_min_change_cases (Row.cost row) v) as [[Hsmall E]|[Hbig E]];
    rewrite E in *; cbn [status new_budget reason] in *.
  - left. repeat split; try assumption.
    unfold rule_low_budget. cbn [status status_eqb]. now rewrite andb_false_r.
  - right. repeat split; try assumption.
    unfold rule_low_budget. cbn [status new_budget reason].
    destruct (below_floor _ _); cbn [andb]; [|now left].
    destruct (status v); cbn; auto.
Qed.

(** *** X3: when a budget is increased *)

(** X3: a decision has status [increased] only for a campaign that is not
    new, under a numeric target, with [roas > target / 100 * 1.2]; its budget
    is then [round(current_budget + current_budget * factor)], and the rules
    never increase a campaign created within the last 24 hours. *)
Theorem increased_only_if now target_roas avg row d :
  decide_row now target_roas avg row = Py.Ok d ->
  Decision.status d = increased ->
  is_new now (Row.create_time_dt row) = false
  /\ exists t n,
      div_100 target_roas = Py.Ok t
      /\ Py.gtb (Row.roas row) (t * 1.2)%float = true
      /\ Py.round_float
           (Row.cost row
            + Row.cost row * get_adjustment_percentage_rules (Row.cost row))%float
         = Py.Ok n
      /\ Decision.new_budget d = Py.float_of_Z n.
Proof.
  intros Hd Hs. apply decide_row_cases in Hd as (v & n & Hv & Hnb & Hcase).
  apply apply_rules_inv in Hv. cbn zeta in Hv.
  destruct Hcase as [(_ & _ & Hu & _)|(_ & Hn & Hst & _)]; [congruence|].
  rewrite Hs in Hst. rewrite <- Hst in Hv.
  destruct Hv as (Hnew & t & k & Ht & Hg & Hk & Hv). split; [exact Hnew|].
  rewrite Hv in Hn. injection Hn as <-. exists t, k. auto.
Qed.

Lemma increased_only_if_witness :
  is_new 0 (Row.create_time_dt (prepare (established "B" 40 80))) = false
  /\ exists t n,
      div_100 (VNum 150) = Py.Ok t
      /\ Py.gtb 2 (t * 1.2)%float = true
      /\ Py.round_float (40 + 40 * get_adjustment_percentage_rules 40)%float = Py.Ok n
      /\ 120%float = Py.float_of_Z n.
Proof.
  exact (increased_only_if 0 (VNum 150) nan (prepare (established "B" 40 80))
           (Decision.mk "B" 40 120 80 (Py.Float 200) increased
              "ROAS表现出色(2.00)，高于目标(1.50)。根据其消耗水平，预算上限可增加200.0%，增加预算至 120。"
              "ROAS: 2.00") eq_refl eq_refl).
Defined.

(** *** X4: when a budget is decreased *)

(** X4: a decision has status [decreased] only in two cases: a new campaign
    with [cpc > avg_cpc_all * 1.3], whose budget is
    [round(max(current_budget * 0.5, 1))], or an established one under a
    numeric target with [0 < roas < target / 100 * 0.8] and not
    [roas > target / 100 * 1.2], whose budget is
    [round(max(current_budget * 0.7, 1))]. *)
Theorem decreased_only_if now target_roas avg row d :
  decide_row now target_roas avg row = Py.Ok d ->
  Decision.status d = decreased ->
  exists n,
    Decision.new_budget d = Py.float_of_Z n
    /\ ((is_new now (Row.create_time_dt row) = true
         /\ Py.gtb (Row.cpc row) (avg * 1.3)%float = true
         /\ Py.round (Py.max_1 (Row.cost row * 0.5)%float) = Py.Ok n)
        \/ (is_new now (Row.create_time_dt row) = false
            /\ exists t,
                div_100 target_roas = Py.Ok t
                /\ Py.gtb (Row.roas row) (t * 1.2)%float = false
                /\ (0 <? Row.roas row)%float = true
                /\ (Row.roas row <? t * 0.8)%float = true
                /\ Py.round (Py.max_1 (Row.cost row * 0.7)%float) = Py.Ok n)).
Proof.
  intros Hd Hs. apply decide_row_cases in Hd as (v & n & Hv & Hnb & Hcase).
  apply apply_rules_inv in Hv. cbn zeta in Hv.
  destruct Hcase as [(_ & _ & Hu & _)|(_ & Hn & Hst & _)]; [congruence|].
  rewrite Hs in Hst. rewrite <- Hst in Hv.
  destruct Hv as (k & Hk & Hv). rewrite Hk in Hn. injection Hn as <-.
  exists k. split; [exact Hnb|exact Hv].
Qed.

Lemma decreased_only_if_witness :
  exists n,
    420%float = Py.float_of_Z n
    /\ ((is_new 0 None = true
         /\ Py.gtb (Row.cpc (prepare (established "C" 600 300))) (nan * 1.3)%float = true
         /\ Py.round (Py.max_1 (600 * 0.5)%float) = Py.Ok n)
        \/ (is_new 0 None = false
            /\ exists t,
                div_100 (VNum 150) = Py.Ok t
                /\ Py.gtb 0.5 (t * 1.2)%float = false
                /\ (0 <? 0.5)%float = true
                /\ (0.5 <? t * 0.8)%float = true
                /\ Py.round (Py.max_1 (600 * 0.7)%float) = Py.Ok n)).
Proof.
  exact (decreased_only_if 0 (VNum 150) nan (prepare (established "C" 600 300))
           (Decision.mk "C" 600 420 (-180) (Py.Float (-30)) decreased
              "ROAS表现不佳(0.50)，低于目标(1.50)。削减预算30%。" "ROAS: 0.50")
           eq_refl eq_refl).
Defined.

(** *** X5: a cut stops at 1 *)

Lemma digits2_pos_lower m : 2 ^ (Zpos (digits2_pos m) - 1) <= Zpos m.
Proof.
  induction m as [p IH|p IH|]; cbn [digits2_pos]; [| |reflexivity];
    rewrite Pos2Z.inj_succ;
    replace (Z.succ (Zpos (digits2_pos p)) - 1)
      with (Z.succ (Zpos (digits2_pos p) - 1)) by lia;
    rewrite Z.pow_succ_r by lia; lia.
Qed.

Lemma round_half_even_ge_quotient num den :
  num / den <= Py.round_half_even num den.
Proof.
  unfold Py.round_half_even.
  destruct (2 * (num mod den) ?= den); [destruct (Z.even _)| |]; lia.
Qed.

Lemma SFltb_positive m e m' e' :
  SFltb (S754_finite false m e) (S754_finite false m' e')
  = match e ?= e' with
    | Lt => true
    | Gt => false
    | Eq => match (m ?= m')%positive with Lt => true | _ => false end
    end.
Proof. unfold SFltb, SFcompare. destruct (e ?= e'); reflexivity. Qed.

(** A float that is not below 1 rounds to an integer that is at least 1. *)
Lemma round_float_ge_1 x n :
  (x <? 1)%float = false -> Py.round_float x = Py.Ok n -> 1 <= n.
Proof.
  intros Hlt. unfold Py.round_float. pose proof (Prim2SF_valid x) as Hv.
  rewrite FloatAxioms.ltb_spec, Prim2SF_one in Hlt.
  destruct (Prim2SF x) as [s|s| |[] m e]; try discriminate.
  intros [= <-]. cbn [cond_Zopp].
  rewrite SFltb_positive in Hlt.
  unfold SpecFloat.valid_binary, bounded, canonical_mantissa, fexp in Hv.
  apply andb_true_iff in Hv as [Hc _]. apply Z.eqb_eq in Hc.
  change prec with 53 in Hc. change (SpecFloat.emin 53 emax) with (-1074) in Hc.
  pose proof (digits2_pos_lower m) as Hlow.
  assert (He : -52 <= e /\ 4503599627370496 <= Zpos m).
  { destruct (Z.compare_spec e (-52)) as [He|He|He]; [|discriminate|].
    - split; [lia|].
      destruct (Pos.compare_spec m 4503599627370496) as [Hm|Hm|Hm];
        [subst m; reflexivity|discriminate|lia].
    - split; [lia|].
      assert (Hd : Zpos (digits2_pos m) = 53) by lia.
      rewrite Hd in Hlow. exact Hlow. }
  clear Hlt Hc Hlow. destruct He as [He Hm].
  destruct e as [|p|p]; cbn [Py.nearest_scaled].
  - change (2 ^ 0) with 1. lia.
  - assert (0 < 2 ^ Zpos p) by (apply Z.pow_pos_nonneg; lia). nia.
  - assert (Hp : 0 < 2 ^ Zpos p <= 4503599627370496).
    { split; [apply Z.pow_pos_nonneg; lia|].
      change 4503599627370496 with (2 ^ 52). apply Z.pow_le_mono_r; lia. }
    pose proof (round_half_even_ge_quotient (1 * Zpos m) (2 ^ Zpos p)) as Hq.
    assert (0 < 1 * Zpos m / 2 ^ Zpos p) by (apply Z.div_str_pos; lia).
    lia.
Qed.

Lemma round_max_1_ge_1 x n : Py.round (Py.max_1 x) = Py.Ok n -> 1 <= n.
Proof.
  unfold Py.max_1, Py.gtb. destruct (x <? 1)%float eqn:Hlt; cbn [Py.round].
  - intros [= <-]. lia.
  - now apply round_float_ge_1.
Qed.

Lemma decreased_rounds_max_1 now target_roas avg row d :
  decide_row now target_roas avg row = Py.Ok d ->
  Decision.status d = decreased ->
  exists n, Decision.new_budget d = Py.float_of_Z n
            /\ (Py.round (Py.max_1 (Row.cost row * 0.5)%float) = Py.Ok n
                \/ Py.round (Py.max_1 (Row.cost row * 0.7)%float) = Py.Ok n).
Proof.
  intros Hd Hs. apply decide_row_cases in Hd as (v & n & Hv & Hnb & Hcase).
  apply apply_rules_inv in Hv. cbn zeta in Hv.
  destruct Hcase as [(_ & _ & Hu & _)|(_ & Hn & Hst & _)]; [congruence|].
  rewrite Hs in Hst. rewrite <- Hst in Hv.
  destruct Hv as (k & Hk & Hv). rewrite Hk in Hn. injection Hn as <-.
  exists k. split; [exact Hnb|].
  destruct Hv as [(_ & _ & Hr)|(_ & t & _ & _ & _ & _ & Hr)]; auto.
Qed.

(** X5: whatever the spend, also a negative or a tiny one, a decision with
    status [decreased] carries as budget the integer that
    [round(max(current_budget * 0.5, 1))] or
    [round(max(current_budget * 0.7, 1))] returned, and this integer is at
    least 1 (and below [2^1024], so it converts to a finite float). *)
Theorem decreased_budget_at_least_1 now target_roas avg row d :
  decide_row now target_roas avg row = Py.Ok d ->
  Decision.status d = decreased ->
  exists n,
    Decision.new_budget d = Py.float_of_Z n
    /\ (Py.round (Py.max_1 (Row.cost row * 0.5)%float) = Py.Ok n
        \/ Py.round (Py.max_1 (Row.cost row * 0.7)%float) = Py.Ok n)
    /\ 1 <= n < 2 ^ 1024.
Proof.
  intros Hd Hs.
  destruct (decreased_rounds_max_1 now target_roas avg row d Hd Hs)
    as (n & Hn & Hr).
  exists n. split; [exact Hn|]. split; [exact Hr|].
  destruct Hr as [Hr|Hr];
    pose proof (round_max_1_ge_1 _ _ Hr); pose proof (round_max_1_bound _ _ Hr); lia.
Qed.

Lemma decreased_budget_at_least_1_witness :
  exists n,
    420%float = Py.float_of_Z n
    /\ (Py.round (Py.max_1 (600 * 0.5)%float) = Py.Ok n
        \/ Py.round (Py.max_1 (600 * 0.7)%float) = Py.Ok n)
    /\ 1 <= n < 2 ^ 1024.
Proof.
  exact (decreased_budget_at_least_1 0 (VNum 150) nan
           (prepare (established "C" 600 300))
           (Decision.mk "C" 600 420 (-180) (Py.Float (-30)) decreased
              "ROAS表现不佳(0.50)，低于目标(1.50)。削减预算30%。" "ROAS: 0.50")
           eq_refl eq_refl).
Defined.

(** *** X6: the reason is a trail *)

(** X6: the reason of a decision is the reason written by rule 1 or 2,
    followed by at most one addition: the suppression note, and then the
    status is [unchanged], or the low-budget warning, and then the status is
    [decreased]; the two are never both present and the rule's text is never
    replaced. *)
Theorem reason_is_a_trail now target_roas avg row d :
  decide_row now target_roas avg row = Py.Ok d ->
  exists v,
    apply_rules now target_roas avg row = Py.Ok v
    /\ trail (reason v) (Decision.status d) (Decision.reason d).
Proof.
  intros Hd. apply decide_row_cases in Hd as (v & n & Hv & _ & Hcase).
  exists v. split; [exact Hv|].
  destruct Hcase as [(_ & _ & Hu & Hr)|(_ & _ & Hst & [Hr|[Hr Hdec]])];
    rewrite Hr.
  - destruct (status v); [constructor|now constructor 2|now constructor 2].
  - constructor.
  - constructor 3. congruence.
Qed.

Lemma reason_is_a_trail_witness :
  exists v,
    apply_rules 0 (VNum 150) nan (prepare (established "S" 2 10)) = Py.Ok v
    /\ trail (reason v) unchanged
         ("ROAS表现出色(5.00)，高于目标(1.50)。根据其消耗水平，预算上限可增加200.0%，增加预算至 6。"
            +:+ suppressed_note).
Proof.
  exact (reason_is_a_trail 0 (VNum 150) nan (prepare (established "S" 2 10))
           (Decision.mk "S" 2 2 0 (Py.Float 0) unchanged
              ("ROAS表现出色(5.00)，高于目标(1.50)。根据其消耗水平，预算上限可增加200.0%，增加预算至 6。"
                 +:+ suppressed_note)
              "ROAS: 5.00") eq_refl).
Defined.

(** *** X7: an infinite cost fails the whole batch *)

Lemma mapM_raise {A B : Type} (f : A -> Py.result B) (l : list A) a e :
  In a l -> f a = Py.Raise e -> exists e', Py.mapM f l = Py.Raise e'.
Proof.
  intros Hin Ha. induction l as [|x l IH]; [contradiction|].
  cbn [Py.mapM]. destruct (f x) as [b|ex] eqn:Hx; cbn [Py.bind]; [|eauto].
  destruct Hin as [->|Hin]; [congruence|].
  destruct (IH Hin) as [e' ->]. cbn. eauto.
Qed.

Lemma round_half_infinity :
  Py.round (Py.max_1 (infinity * 0.5)%float) = Py.Raise Py.OverflowError.
Proof. reflexivity. Qed.

Lemma round_cut_infinity :
  Py.round (Py.max_1 (infinity * 0.7)%float) = Py.Raise Py.OverflowError.
Proof. reflexivity. Qed.

Lemma round_raised_infinity :
  Py.round (Py.Float (infinity + infinity * get_adjustment_percentage_rules infinity)%float)
  = Py.Raise Py.OverflowError.
Proof. reflexivity. Qed.

Lemma rule_integer_infinity r s :
  rule_integer (rule_min_change infinity (mkLocals (Py.Float infinity) r s))
  = Py.Raise Py.OverflowError.
Proof. reflexivity. Qed.

Lemma decide_row_infinite_cost now target_roas avg row :
  Row.cost row = infinity ->
  exists e, decide_row now target_roas avg row = Py.Raise e.
Proof.
  intros Hc. unfold decide_row, apply_rules, rule_new, rule_roas. rewrite Hc.
  destruct (is_new _ _).
  - destruct (Py.gtb _ _).
    + rewrite round_half_infinity. cbn. eauto.
    + cbn [Py.bind new_budget]. rewrite rule_integer_infinity. cbn. eauto.
  - destruct (div_100 target_roas) as [t|e]; cbn [Py.bind]; [|eauto].
    destruct (Py.gtb _ _); [|destruct (_ && _)].
    + cbv zeta. rewrite round_raised_infinity. cbn. eauto.
    + rewrite round_cut_infinity. cbn. eauto.
    + cbn [Py.bind]. rewrite rule_integer_infinity. cbn. eauto.
Qed.

(** X7: when one record of the batch has the cost [+inf] (a JSON number
    such as 1e999, or the text "inf"), [analyze_campaigns] raises and returns
    no decision at all, whatever the other records are, and the endpoint
    answers with status 500. *)
Theorem infinite_cost_fails_batch now total_budget target_roas l c
  (data : gmap string value) :
  In c l ->
  Campaign.cost c = Num infinity ->
  (exists e,
      analyze_campaigns now total_budget target_roas (VCampaigns l) = Py.Raise e)
  /\ (truthy (get data "total_budget") = true ->
      truthy (get data "target_roas") = true ->
      get data "campaign_data" = VCampaigns l ->
      code (analyze_budget_endpoint now (Some data)) = 500).
Proof.
  intros Hin Hc.
  assert (Hraise : forall tb tr,
             exists e, analyze_campaigns now tb tr (VCampaigns l) = Py.Raise e).
  { intros tb tr. unfold analyze_campaigns.
    assert (Ht : truthy (VCampaigns l) = true) by (destruct l; [contradiction|reflexivity]).
    rewrite Ht. cbn [negb].
    destruct (decide_row_infinite_cost now tr (avg_cpc_valid (map prepare l))
                (prepare c)) as [e He].
    { cbn [prepare Row.cost]. rewrite Hc. reflexivity. }
    destruct (mapM_raise _ (map prepare l) (prepare c) e (in_map prepare l c Hin) He)
      as [e' ->]. cbn. eauto. }
  split; [apply Hraise|].
  intros Htb Htr Hcd. unfold analyze_budget_endpoint.
  destruct (Nat.eqb (size data) 0) eqn:Hsize.
  - apply Nat.eqb_eq, map_size_empty_iff in Hsize. subst data.
    discriminate Htb.
  - cbn [forallb]. rewrite Htb, Htr, Hcd.
    assert (Ht : truthy (VCampaigns l) = true) by (destruct l; [contradiction|reflexivity]).
    rewrite Ht. cbn [andb negb].
    destruct (Hraise (get data "total_budget") (get data "target_roas")) as [e ->].
    reflexivity.
Qed.

Lemma infinite_cost_fails_batch_witness :
  exists e,
    analyze_campaigns 0 (VNum 1000) (VNum 150)
      (VCampaigns [established "B" 40 80; established "I" infinity 0])
    = Py.Raise e.
Proof.
  exact (proj1 (infinite_cost_fails_batch 0 (VNum 1000) (VNum 150)
                  [established "B" 40 80; established "I" infinity 0]
                  (established "I" infinity 0) ∅
                  (or_intror (or_introl eq_refl)) eq_refl)).
Defined.

(** *** X8: round is never applied to NaN *)

Lemma shr_1_nonneg mrs : 0 <= shr_m mrs -> 0 <= shr_m (shr_1 mrs).
Proof.
  destruct mrs as [m r s]. cbn [shr_m]. intros Hm.
  destruct m as [|[p|p|]|p]; cbn; lia.
Qed.

Lemma iter_shr_1_nonneg p mrs :
  0 <= shr_m mrs -> 0 <= shr_m (SpecFloat.iter_pos shr_1 p mrs).
Proof.
  revert mrs. induction p as [p IH|p IH|]; intros mrs Hm; cbn [SpecFloat.iter_pos].
  - apply IH, IH, shr_1_nonneg, Hm.
  - apply IH, IH, Hm.
  - apply shr_1_nonneg, Hm.
Qed.

Lemma shr_fexp_nonneg m e l :
  0 <= m -> 0 <= shr_m (fst (shr_fexp prec emax m e l)).
Proof.
  intros Hm. unfold shr_fexp, shr.
  assert (H0 : 0 <= shr_m (shr_record_of_loc m l))
    by (destruct l as [|[]]; exact Hm).
  destruct (fexp prec emax (Zdigits2 m + e) - e) as [|p|p]; cbn [fst]; trivial.
  now apply iter_shr_1_nonneg.
Qed.

Lemma round_nearest_even_nonneg m l : 0 <= m -> 0 <= round_nearest_even m l.
Proof.
  intros Hm. unfold round_nearest_even.
  destruct l as [|[]]; try destruct (Z.even m); lia.
Qed.

(** Rounding a non-negative mantissa never gives NaN. *)
Lemma binary_round_aux_not_nan s m e l :
  0 <= m -> binary_round_aux prec emax s m e l <> S754_nan.
Proof.
  intros Hm. unfold binary_round_aux.
  pose proof (shr_fexp_nonneg m e l Hm) as H1.
  destruct (shr_fexp prec emax m e l) as [mrs e']. cbn [fst] in H1.
  pose proof (shr_fexp_nonneg _ e' loc_Exact
                (round_nearest_even_nonneg _ (loc_of_shr_record mrs) H1)) as H2.
  destruct (shr_fexp prec emax _ e' loc_Exact) as [mrs' e'']. cbn [fst] in H2.
  destruct (shr_m mrs') as [|p|p]; [discriminate| |lia].
  destruct (e'' <=? _); discriminate.
Qed.

Lemma binary_round_not_nan s m e : binary_round prec emax s m e <> S754_nan.
Proof.
  unfold binary_round. destruct (shl_align m e _) as [mz ez].
  apply binary_round_aux_not_nan. lia.
Qed.

(** A number times a finite non-zero constant is a number. *)
Lemma SFmul_finite_not_nan x s m e :
  x <> S754_nan -> SF64mul x (S754_finite s m e) <> S754_nan.
Proof.
  destruct x as [sx|sx| |sx mx ex]; intros Hx; try discriminate; [contradiction|].
  apply binary_round_aux_not_nan. lia.
Qed.

(** [x + x * k] for a positive finite [k] is a number when [x] is. *)
Lemma SFadd_scaled_not_nan x m e :
  x <> S754_nan ->
  SF64add x (SF64mul x (S754_finite false m e)) <> S754_nan.
Proof.
  destruct x as [sx|sx| |sx mx ex]; intros Hx; [| |contradiction|].
  - destruct sx; discriminate.
  - destruct sx; discriminate.
  - unfold SF64mul, SFmul.
    pose proof (binary_round_aux_sign (xorb sx false) (Zpos (mx * m)) (ex + e)
                  loc_Exact) as Hs.
    pose proof (binary_round_aux_not_nan (xorb sx false) (Zpos (mx * m)) (ex + e)
                  loc_Exact ltac:(lia)) as Hn.
    destruct (binary_round_aux prec emax (xorb sx false) (Zpos (mx * m)) (ex + e)
                loc_Exact) as [s'|s'| |s' m' e']; [| |contradiction|];
      try discriminate.
    unfold SF64add, SFadd, binary_normalize.
    destruct (_ + _) as [|p|p]; [discriminate| |]; apply binary_round_not_nan.
Qed.

Lemma is_nan_false_Prim2SF x : is_nan x = false -> Prim2SF x <> S754_nan.
Proof.
  unfold is_nan. rewrite FloatAxioms.eqb_spec. intros H E. rewrite E in H.
  discriminate H.
Qed.

Lemma round_float_raise x e :
  Prim2SF x <> S754_nan -> Py.round_float x = Py.Raise e -> e = Py.OverflowError.
Proof.
  unfold Py.round_float.
  destruct (Prim2SF x); intros Hx H; try discriminate; [|contradiction].
  now injection H as <-.
Qed.

Lemma factor_finite d :
  exists m e, Prim2SF (get_adjustment_percentage_rules d) = S754_finite false m e.
Proof.
  destruct (factor_cases d) as [-> | [-> | [-> | ->]]]; eauto.
Qed.

Lemma round_max_1_raise x e :
  Prim2SF x <> S754_nan -> Py.round (Py.max_1 x) = Py.Raise e ->
  e = Py.OverflowError.
Proof.
  unfold Py.max_1. destruct (Py.gtb 1 x); cbn [Py.round]; [discriminate|].
  apply round_float_raise.
Qed.

(** X8: none of the four calls of [round] in the loop (lines 80, 93, 97
    and 109) is applied to NaN, because the coerced cost is never NaN: on
    [max(cost * 0.5, 1)], on [cost + cost * factor], on [max(cost * 0.7, 1)]
    and on the cost itself, the only error [round] can raise is the
    [OverflowError] of an infinity, never the [ValueError] of a NaN. *)
Theorem round_never_sees_nan (c : Campaign.t) (e : Py.exn) :
  let cost := current_budget_of c in
  Py.round (Py.max_1 (cost * 0.5)%float) = Py.Raise e
  \/ Py.round (Py.Float (cost + cost * get_adjustment_percentage_rules cost)%float)
     = Py.Raise e
  \/ Py.round (Py.max_1 (cost * 0.7)%float) = Py.Raise e
  \/ Py.round (Py.Float cost) = Py.Raise e ->
  e = Py.OverflowError.
Proof.
  intros cost.
  pose proof (is_nan_false_Prim2SF cost (is_nan_to_numeric_fillna (Campaign.cost c)))
    as Hcost.
  assert (Hmul : forall k s m ex, Prim2SF k = S754_finite s m ex ->
                   Prim2SF (cost * k) <> S754_nan).
  { intros k s m ex Hk. rewrite mul_spec, Hk. now apply SFmul_finite_not_nan. }
  intros [H|[H|[H|H]]].
  - eapply round_max_1_raise; [|exact H]. eapply (Hmul 0.5%float). reflexivity.
  - cbn [Py.round] in H. eapply round_float_raise; [|exact H].
    destruct (factor_finite cost) as (m & ex & Hf).
    rewrite add_spec, mul_spec, Hf. now apply SFadd_scaled_not_nan.
  - eapply round_max_1_raise; [|exact H]. eapply (Hmul 0.7%float). reflexivity.
  - cbn [Py.round] in H. eapply round_float_raise; eassumption.
Qed.

Lemma round_never_sees_nan_witness :
  Py.round (Py.Float (current_budget_of (established "I" infinity 0)))
  = Py.Raise Py.OverflowError
  /\ Py.OverflowError = Py.OverflowError.
Proof.
  split; [reflexivity|].
  exact (round_never_sees_nan (established "I" infinity 0) Py.OverflowError
           (or_intror (or_intror (or_intror eq_refl)))).
Defined.

(** *** X9: new campaigns do not read the target *)

Lemma mapM_ext_in {A B : Type} (f g : A -> Py.result B) (l : list A) :
  (forall a, In a l -> f a = g a) -> Py.mapM f l = Py.mapM g l.
Proof.
  induction l as [|x l IH]; intros H; [reflexivity|].
  cbn [Py.mapM]. rewrite (H x (or_introl eq_refl)), IH; [reflexivity|].
  intros a Ha. apply H. now right.
Qed.

Lemma decide_row_new_any_target now tr1 tr2 avg row :
  is_new now (Row.create_time_dt row) = true ->
  decide_row now tr1 avg row = decide_row now tr2 avg row.
Proof. intros Hnew. unfold decide_row, apply_rules. now rewrite Hnew. Qed.


(** X9: a batch in which every campaign was created within the last 24
    hours is evaluated without reading [target_roas]: any two targets, also
    one that is no number, give the same result. *)
Theorem new_batch_ignores_target now tb1 tb2 tr1 tr2 l :
  Forall (fun c => is_new now (Campaign.create_time c) = true) l ->
  analyze_campaigns now tb1 tr1 (VCampaigns l)
  = analyze_campaigns now tb2 tr2 (VCampaigns l).
Proof.
  intros Hnew. unfold analyze_campaigns.
  destruct (negb (truthy (VCampaigns l))); [reflexivity|].
  rewrite (mapM_ext_in (decide_row now tr1 (avg_cpc_valid (map prepare l)))
             (decide_row now tr2 (avg_cpc_valid (map prepare l)))); [reflexivity|].
  intros row Hin. apply in_map_iff in Hin as (c & <- & Hc).
  apply decide_row_new_any_target.
  exact (proj1 (List.Forall_forall _ l) Hnew c Hc).
Qed.

Lemma new_batch_ignores_target_witness :
  analyze_campaigns sample_now (VNum 1000) (VNum 150)
    (VCampaigns [fresh_without_clicks sample_now])
  = analyze_campaigns sample_now VNone (VStr "high")
      (VCampaigns [fresh_without_clicks sample_now]).
Proof.
  apply (new_batch_ignores_target sample_now (VNum 1000) VNone (VNum 150)
           (VStr "high") [fresh_without_clicks sample_now]).
  repeat constructor.
Defined.

(** *** X10: an established campaign does not depend on its batch *)



(** *** X11: the fields that are never read *)

Lemma mapM_ext_Forall2 {A B : Type} (f g : A -> Py.result B) (l l' : list A) :
  Forall2 (fun a a' => f a = g a') l l' -> Py.mapM f l = Py.mapM g l'.
Proof.
  induction 1 as [|a a' l l' Ha _ IH]; [reflexivity|].
  cbn [Py.mapM]. now rewrite Ha, IH.
Qed.

(** The loop reads five columns of a row. *)
Lemma decide_row_ext now target_roas avg row row' :
  Row.campaign_id row = Row.campaign_id row' ->
  Row.cost row = Row.cost row' ->
  Row.roas row = Row.roas row' ->
  Row.cpc row = Row.cpc row' ->
  Row.create_time_dt row = Row.create_time_dt row' ->
  decide_row now target_roas avg row = decide_row now target_roas avg row'.
Proof.
  intros Hi Hc Hr Hp Ht. unfold decide_row, apply_rules, assemble.
  now rewrite Hi, Hc, Hr, Hp, Ht.
Qed.

(** X11: [impression], [action] and [purchase] (and the CPA computed from
    [action]) never influence a result: two batches whose records agree on
    [campaign_id], [cost], [click], [purchase_value] and [create_time] are
    evaluated alike. *)
Theorem unread_fields now total_budget target_roas l l' :
  Forall2 same_used_fields l l' ->
  analyze_campaigns now total_budget target_roas (VCampaigns l)
  = analyze_campaigns now total_budget target_roas (VCampaigns l').
Proof.
  intros H. unfold analyze_campaigns. cbn [truthy].
  rewrite (Forall2_length _ _ _ H).
  destruct (negb (negb (Nat.eqb (length l') 0))); [reflexivity|].
  assert (Hrows : Forall2 (fun r r' =>
                             Row.campaign_id r = Row.campaign_id r'
                             /\ Row.cost r = Row.cost r'
                             /\ Row.roas r = Row.roas r'
                             /\ Row.cpc r = Row.cpc r'
                             /\ Row.create_time_dt r = Row.create_time_dt r')
                    (map prepare l) (map prepare l')).
  { induction H as [|c c' l l' (Hi & Hc & Hk & Hp & Ht) _ IH]; cbn [map];
      constructor; [|exact IH].
    cbn [prepare Row.campaign_id Row.cost Row.roas Row.cpc Row.create_time_dt].
    now rewrite Hi, Hc, Hk, Hp, Ht. }
  assert (Havg : avg_cpc_valid (map prepare l) = avg_cpc_valid (map prepare l')).
  { unfold avg_cpc_valid. f_equal. f_equal. clear H.
    induction Hrows as [|r r' rs rs' (_ & _ & _ & Hp & _) _ IH]; cbn [map];
      [reflexivity|]. now rewrite Hp, IH. }
  rewrite Havg. erewrite mapM_ext_Forall2; [reflexivity|].
  eapply Forall2_impl; [exact Hrows|]. cbn beta.
  intros r r' (Hi & Hc & Hr & Hp & Ht). now apply decide_row_ext.
Qed.

Lemma unread_fields_witness :
  analyze_campaigns 0 (VNum 1000) (VNum 150) (VCampaigns [established "B" 40 80])
  = analyze_campaigns 0 (VNum 1000) (VNum 150)
      (VCampaigns [Campaign.mk "B" (Num 40) NotNum (Num 10) (Num (-7)) (Num infinity)
                     (Num 80) None]).
Proof.
  apply (unread_fields 0 (VNum 1000) (VNum 150) [established "B" 40 80]).
  repeat constructor.
Defined.

(** *** X12: the tier factor falls as the spend grows *)

Lemma leb_key (a b : float) :
  (a <=? b)%float
  = match key (Prim2SF a), key (Prim2SF b) with
    | Some p, Some q => match lex p q with Gt => false | _ => true end
    | _, _ => false
    end.
Proof.
  rewrite FloatAxioms.leb_spec. unfold SFleb. rewrite SFcompare_key.
  destruct (key (Prim2SF a)), (key (Prim2SF b)); reflexivity.
Qed.

Lemma ltb_key (a b : float) :
  (a <? b)%float
  = match key (Prim2SF a), key (Prim2SF b) with
    | Some p, Some q => match lex p q with Lt => true | _ => false end
    | _, _ => false
    end.
Proof.
  rewrite FloatAxioms.ltb_spec. unfold SFltb. rewrite SFcompare_key.
  destruct (key (Prim2SF a)), (key (Prim2SF b)); reflexivity.
Qed.

Lemma lex_antisym p q : lex q p = CompOpp (lex p q).
Proof.
  destruct p as [[a b] c], q as [[a' b'] c']. unfold lex.
  rewrite (Z.compare_antisym a a'), (Z.compare_antisym b b'),
    (Z.compare_antisym c c').
  destruct (a ?= a'), (b ?= b'), (c ?= c'); reflexivity.
Qed.

Lemma lex_trans_le p q r : lex p q <> Gt -> lex q r <> Gt -> lex p r <> Gt.
Proof.
  destruct p as [[a b] c], q as [[a' b'] c'], r as [[a'' b''] c'']. unfold lex.
  destruct (Z.compare_spec a a'), (Z.compare_spec a' a''), (Z.compare_spec a a'');
    try discriminate; try congruence; try lia;
  destruct (Z.compare_spec b b'), (Z.compare_spec b' b''), (Z.compare_spec b b'');
    try discriminate; try congruence; try lia;
  destruct (Z.compare_spec c c'), (Z.compare_spec c' c''), (Z.compare_spec c c'');
    try discriminate; try congruence; try lia.
Qed.

Lemma leb_trans (a b c : float) :
  (a <=? b)%float = true -> (b <=? c)%float = true -> (a <=? c)%float = true.
Proof.
  rewrite !leb_key.
  destruct (key (Prim2SF a)) as [p|], (key (Prim2SF b)) as [q|],
    (key (Prim2SF c)) as [r|]; try discriminate.
  intros H1 H2. pose proof (lex_trans_le p q r) as H.
  destruct (lex p q), (lex q r), (lex p r); try reflexivity; try discriminate;
    exfalso; apply H; congruence.
Qed.

(** Two numbers are ordered one way or the other. *)
Lemma leb_false_ltb (a b x y : float) :
  (a <=? x)%float = true -> (y <=? b)%float = true ->
  (a <=? b)%float = false -> (b <? a)%float = true.
Proof.
  rewrite !leb_key, ltb_key.
  destruct (key (Prim2SF a)) as [p|], (key (Prim2SF b)) as [q|];
    try (destruct (key (Prim2SF x)); discriminate);
    try (destruct (key (Prim2SF y)); discriminate).
  intros _ _. rewrite (lex_antisym p q). destruct (lex p q); cbn; congruence.
Qed.

(** X12: the tier factor is one of 2.0, 1.0, 0.5 and 0.3 for every spend,
    and a larger spend never gets a larger factor. *)
Theorem tier_factor_monotone (d1 d2 : float) :
  (d1 <=? d2)%float = true ->
  In (get_adjustment_percentage_rules d1) [2.0; 1.0; 0.5; 0.3]%float
  /\ (get_adjustment_percentage_rules d2 <=? get_adjustment_percentage_rules d1)%float
     = true.
Proof.
  intros H. split.
  { destruct (factor_cases d1) as [-> | [-> | [-> | ->]]]; cbn; tauto. }
  assert (Hup : forall c, (c <? d1)%float = true -> (c <? d2)%float = true)
    by (intros c Hc; exact (ltb_leb_trans c d1 d2 Hc H)).
  assert (Hdown : forall c, (d2 <=? c)%float = true -> (d1 <=? c)%float = true)
    by (intros c Hc; exact (leb_trans d1 d2 c H Hc)).
  assert (Htot : forall c, (c <=? c)%float = true ->
                   (d1 <=? c)%float = false -> (c <? d1)%float = true)
    by (intros c Hc Hn; exact (leb_false_ltb d1 c d2 c H Hc Hn)).
  unfold get_adjustment_percentage_rules.
  destruct (d2 <=? 50)%float eqn:A2.
  { now rewrite (Hdown _ A2). }
  destruct (d1 <=? 50)%float eqn:A1.
  { destruct (_ && _); [reflexivity|]. destruct (_ && _); reflexivity. }
  pose proof (Htot 50%float eq_refl A1) as B1. rewrite B1, (Hup _ B1).
  cbn [andb]. destruct (d2 <=? 100)%float eqn:C2.
  { now rewrite (Hdown _ C2). }
  destruct (d1 <=? 100)%float eqn:C1.
  { destruct (_ && _); reflexivity. }
  pose proof (Htot 100%float eq_refl C1) as D1. rewrite D1, (Hup _ D1).
  cbn [andb]. destruct (d2 <=? 500)%float eqn:E2.
  { now rewrite (Hdown _ E2). }
  destruct (d1 <=? 500)%float; reflexivity.
Qed.

Lemma tier_factor_monotone_witness :
  (get_adjustment_percentage_rules 600 <=? get_adjustment_percentage_rules 40)%float
  = true.
Proof. exact (proj2 (tier_factor_monotone 40 600 eq_refl)). Defined.

(** *** X13: what a 200 response carries *)

(** X13: when the endpoint answers with an analysis, the status is 200, the
    analysis is a list with one decision per campaign of a non-empty
    [campaign_data], and never the error object of the core: an empty
    [campaign_data] is rejected as a missing parameter before the core is
    called. *)
Theorem endpoint_analysis_shape now (data : option (gmap string value)) a :
  json (analyze_budget_endpoint now data) = JsonAnalysis a ->
  code (analyze_budget_endpoint now data) = 200
  /\ exists d l results,
      data = Some d
      /\ get d "campaign_data" = VCampaigns l
      /\ l <> []
      /\ a = Results results
      /\ length results = length l.
Proof.
  unfold analyze_budget_endpoint. destruct data as [d|]; [|discriminate].
  destruct (Nat.eqb (size d) 0); [discriminate|].
  destruct (forallb truthy _) eqn:Hall; cbn [negb]; [|discriminate].
  cbn [forallb] in Hall. apply andb_true_iff in Hall as [_ Hall].
  apply andb_true_iff in Hall as [_ Hall]. apply andb_true_iff in Hall as [Hcd _].
  destruct (analyze_campaigns now _ _ _) as [a'|e] eqn:Hcore; [|discriminate].
  cbn [json code]. intros [= ->]. split; [reflexivity|].
  unfold analyze_campaigns in Hcore. rewrite Hcd in Hcore. cbn [negb] in Hcore.
  destruct (get d "campaign_data") as [| | | |l] eqn:Hget; try discriminate.
  pose proof Hcore as Hrows.
  apply bind_Ok_inv in Hcore as (rs & _ & [= <-]).
  exists d, l, rs. repeat split.
  - exact Hget.
  - intros ->. discriminate Hcd.
  - assert (Hfull : analyze_campaigns now (get d "total_budget")
                      (get d "target_roas") (VCampaigns l)
                    = Py.Ok (Results rs)).
    { unfold analyze_campaigns. rewrite Hcd. exact Hrows. }
    apply analyze_campaigns_rows in Hfull. symmetry.
    exact (Forall2_length _ _ _ Hfull).
Qed.

Lemma endpoint_analysis_shape_witness :
  code (analyze_budget_endpoint sample_now (Some (sample_body (VNum 1000)))) = 200.
Proof.
  exact (proj1 (endpoint_analysis_shape sample_now (Some (sample_body (VNum 1000)))
                  (Results
                     [Decision.mk "B" 40 120 80 (Py.Float 200) increased
                        "ROAS表现出色(2.00)，高于目标(1.50)。根据其消耗水平，预算上限可增加200.0%，增加预算至 120。"
                        "ROAS: 2.00"])
                  eq_refl)).
Defined.

(** *** X14: records without clicks do not enter the average *)

(** X14: a record whose click count is not above 0 has the CPC [inf] and is
    left out of [avg_cpc_all]: adding it to a batch, at any place, does not
    change the average the new campaigns are compared with. *)
Theorem no_click_leaves_average l1 c l2 :
  no_click c ->
  avg_cpc_valid (map prepare (l1 ++ c :: l2))
  = avg_cpc_valid (map prepare (l1 ++ l2)).
Proof.
  intros Hc. unfold avg_cpc_valid. f_equal.
  rewrite !map_app, !filter_app. f_equal.
  cbn [map filter]. now rewrite (no_click_cpc c Hc).
Qed.

Lemma no_click_leaves_average_witness :
  avg_cpc_valid
    (map prepare [established "B" 40 80; fresh_without_clicks sample_now;
                  established "C" 600 300])
  = avg_cpc_valid (map prepare [established "B" 40 80; established "C" 600 300]).
Proof.
  apply (no_click_leaves_average [established "B" 40 80]
           (fresh_without_clicks sample_now) [established "C" 600 300]).
  reflexivity.
Defined.

(** *** X15: a target that is no number *)

(** X15: when [target_roas] is a text (such as "150"), the division
    [target_roas / 100.0] raises at a campaign that is not new, so a batch
    with such a campaign raises and returns no decision at all. *)
Theorem text_target_fails_batch now total_budget (s : string) l c :
  In c l ->
  is_new now (Campaign.create_time c) = false ->
  exists e,
    analyze_campaigns now total_budget (VStr s) (VCampaigns l) = Py.Raise e.
Proof.
  intros Hin Hnew. unfold analyze_campaigns.
  assert (Ht : truthy (VCampaigns l) = true) by (destruct l; [contradiction|reflexivity]).
  rewrite Ht. cbn [negb].
  assert (Hrow : decide_row now (VStr s) (avg_cpc_valid (map prepare l)) (prepare c)
                 = Py.Raise Py.TypeError).
  { unfold decide_row. rewrite apply_rules_established by exact Hnew. reflexivity. }
  destruct (mapM_raise _ (map prepare l) (prepare c) _ (in_map prepare l c Hin) Hrow)
    as [e' ->].
  cbn. eauto.
Qed.

Lemma text_target_fails_batch_witness :
  exists e,
    analyze_campaigns 0 (VNum 1000) (VStr "150") (VCampaigns [established "B" 40 80])
    = Py.Raise e.
Proof.
  exact (text_target_fails_batch 0 (VNum 1000) "150" [established "B" 40 80]
           (established "B" 40 80) (or_introl eq_refl) eq_refl).
Defined.
